(** * start_server.py: the bootstrap launcher of the shopping cart server

    A shallow embedding of [start_server.py] and of the part of the Python
    run time its statements call into: [os.environ], [os.chdir],
    [os.path.abspath] and [os.path.dirname] (POSIX flavour), the import
    system, [open(..).read()] and [exec].

    The launcher has no function of its own: its module body is embedded as
    [start_server], cut into the three operations it performs one after the
    other, [configure_environment] (line 10), [establish_working_directory]
    (lines 15-16) and [launch_application] (lines 19-24). *)

From stdpp Require Import base option list strings gmap.
From Stdlib Require Import Ascii String.

(** ** POSIX path functions, after CPython's [posixpath] *)

Module posixpath.

Definition sep : ascii := "/"%char.

Definition is_sep (c : ascii) : bool := Ascii.eqb c sep.

(** [s.startswith('/')] *)
Definition isabs (s : string) : bool :=
  match s with
  | String c _ => is_sep c
  | EmptyString => false
  end.

(** [s.endswith('/')] *)
Fixpoint endswith_sep (s : string) : bool :=
  match s with
  | EmptyString => false
  | String c r =>
      match r with
      | EmptyString => is_sep c
      | String _ _ => endswith_sep r
      end
  end.

(** [join(a, b)] for one trailing component. *)
Definition join (a b : string) : string :=
  if isabs b then b
  else if String.eqb a "" || endswith_sep a then a +:+ b
  else a +:+ "/" +:+ b.

(** [s.split('/')]: never the empty list. *)
Fixpoint split (s : string) : list string :=
  match s with
  | EmptyString => [""]
  | String c r =>
      if is_sep c then "" :: split r
      else match split r with
           | w :: ws => String c w :: ws
           | [] => [String c ""]
           end
  end.

(** ['/'.join(comps)] *)
Fixpoint sep_join (comps : list string) : string :=
  match comps with
  | [] => ""
  | c :: cs =>
      match cs with
      | [] => c
      | _ :: _ => c +:+ "/" +:+ sep_join cs
      end
  end.

(** The number of leading slashes [normpath] keeps: POSIX allows one or
    two, and treats three or more as one. *)
Definition initial_slashes (s : string) : nat :=
  match s with
  | String c1 r1 =>
      if is_sep c1 then
        match r1 with
        | String c2 r2 =>
            if is_sep c2 then
              match r2 with
              | String c3 _ => if is_sep c3 then 1 else 2
              | EmptyString => 2
              end
            else 1
        | EmptyString => 1
        end
      else 0
  | EmptyString => 0
  end.

(** One turn of the loop of [normpath] over the components. *)
Definition normpath_step (slashes : nat) (new_comps : list string)
    (comp : string) : list string :=
  if String.eqb comp "" || String.eqb comp "." then new_comps
  else if negb (String.eqb comp "..")
          || (Nat.eqb slashes 0 && bool_decide (new_comps = []))
          || from_option (String.eqb "..") false (last new_comps)
  then new_comps ++ [comp]
  else removelast new_comps.

Fixpoint repeat_sep (n : nat) : string :=
  match n with
  | O => ""
  | S k => String sep (repeat_sep k)
  end.

Definition normpath (s : string) : string :=
  if String.eqb s "" then "."
  else
    let slashes := initial_slashes s in
    let comps := fold_left (normpath_step slashes) (split s) [] in
    let path := repeat_sep slashes +:+ sep_join comps in
    if String.eqb path "" then "." else path.

(** [abspath(path)], with the current directory it reads through
    [os.getcwd()] made a parameter. *)
Definition abspath (cwd path : string) : string :=
  normpath (if isabs path then path else join cwd path).

(** [s.rfind('/')], [None] for Python's -1. *)
Fixpoint rfind_sep (s : string) : option nat :=
  match s with
  | EmptyString => None
  | String c r =>
      match rfind_sep r with
      | Some i => Some (S i)
      | None => if is_sep c then Some 0 else None
      end
  end.

(** [s[:i]] *)
Fixpoint take (i : nat) (s : string) : string :=
  match i, s with
  | S k, String c r => String c (take k r)
  | _, _ => ""
  end.

(** [s == '/' * len(s)] *)
Fixpoint all_sep (s : string) : bool :=
  match s with
  | EmptyString => true
  | String c r => is_sep c && all_sep r
  end.

(** [s.rstrip('/')] *)
Fixpoint rstrip_sep (s : string) : string :=
  match s with
  | EmptyString => ""
  | String c r =>
      match rstrip_sep r with
      | EmptyString => if is_sep c then "" else String c ""
      | String _ _ as r' => String c r'
      end
  end.

Definition dirname (p : string) : string :=
  let i := from_option S 0 (rfind_sep p) in
  let head := take i p in
  if negb (String.eqb head "") && negb (all_sep head)
  then rstrip_sep head
  else head.

(** The text of the absolute path whose components are [comps]:
    ["/"] for the root, ["/a/b"] for [["a"; "b"]]. *)
Definition render_abs (comps : list string) : string :=
  "/" +:+ sep_join comps.

(** A component as [normpath] leaves it in an absolute path: not empty,
    without a slash, neither ["."] nor [".."]. *)
Fixpoint slash_free (s : string) : bool :=
  match s with
  | EmptyString => true
  | String c r => negb (is_sep c) && slash_free r
  end.

Definition proper_comp (s : string) : bool :=
  slash_free s && negb (String.eqb s "") && negb (String.eqb s ".")
  && negb (String.eqb s "..").

End posixpath.

(** ** The process the launcher runs in *)

(** The value of a module attribute, as far as the launcher looks at it:
    a [str], or anything else. *)
Inductive pyval :=
| PStr (s : string)
| POther.

(** Objects live in a store and are referred to by address: a module in
    [sys.modules], an attribute of a package and a name of the launcher may
    all refer to the same object. *)
Definition addr : Type := nat.

(** An object the import statement may bind, a module as a rule: its
    [__name__] attribute, [None] when it has none, and its other attributes
    (for a package, the submodules and whatever its top level bound). *)
Record module_obj := {
  mod_name : option pyval;
  mod_attrs : gmap string addr
}.

(** [environ] is the mapping behind [os.environ], [cwd] what [os.getcwd()]
    returns, [argv] is [sys.argv], [sys_modules] is [sys.modules], [heap]
    is the store of objects. *)
Record proc := {
  environ : gmap string string;
  cwd : string;
  argv : list string;
  sys_modules : gmap string addr;
  heap : gmap addr module_obj
}.

Definition set_environ (f : gmap string string → gmap string string)
    (s : proc) : proc :=
  {| environ := f (environ s); cwd := cwd s; argv := argv s;
     sys_modules := sys_modules s; heap := heap s |}.

Definition set_cwd (d : string) (s : proc) : proc :=
  {| environ := environ s; cwd := d; argv := argv s;
     sys_modules := sys_modules s; heap := heap s |}.

Definition set_sys_modules
    (f : gmap string addr → gmap string addr) (s : proc) : proc :=
  {| environ := environ s; cwd := cwd s; argv := argv s;
     sys_modules := f (sys_modules s); heap := heap s |}.

Definition set_heap
    (f : gmap addr module_obj → gmap addr module_obj) (s : proc) : proc :=
  {| environ := environ s; cwd := cwd s; argv := argv s;
     sys_modules := sys_modules s; heap := f (heap s) |}.

(** The object at an address; an address that holds nothing reads as an
    object without attributes. *)
Definition object_at (s : proc) (a : addr) : module_obj :=
  default {| mod_name := None; mod_attrs := ∅ |} (heap s !! a).

(** An address no object lives at. *)
Definition fresh_addr (s : proc) : addr := fresh (dom (heap s)).

(** Code that is not the launcher's: the top level of an imported module,
    or a text handed to [exec]. It may change the process as it likes; it
    returns, raises (a [SystemExit] included) or never returns, as a server
    loop does. *)
Inductive foreign_result :=
| FReturn (s : proc)
| FRaise (what : string) (s : proc)
| FHang.

Definition code : Type := proc → foreign_result.

(** What the launcher finds around it: the directories [os.chdir] can enter,
    the text files [open(..).read()] can read (by absolute path), the
    modules the import system can find with the code of their top level,
    and what a text does when it is run by [exec] in the launcher's
    namespace. *)
Record world := {
  is_dir : string → bool;
  read_text : string → option string;
  find_module : string → proc → option code;
  exec_source : string → code
}.

Inductive exn :=
| ModuleNotFoundError (name : string)
| ImportError (name : string)
| KeyError (name : string)
| OSError (path : string)
| ForeignError (what : string).

(** What a statement of the launcher does to the process, in the order the
    launcher does it. [EvLoad] is the import system running the top level
    of a module it has just found; [EvSetdefault] records whether the call
    wrote the environment. *)
Inductive event :=
| EvImport (name : string)
| EvLoad (name : string)
| EvSetdefault (key value : string) (wrote : bool)
| EvChdir (path : string)
| EvOpen (path : string)
| EvExec (source : string).

Global Instance pyval_eq_dec : EqDecision pyval.
Proof. solve_decision. Defined.
Global Instance module_obj_eq_dec : EqDecision module_obj.
Proof. solve_decision. Defined.
Global Instance exn_eq_dec : EqDecision exn.
Proof. solve_decision. Defined.
Global Instance event_eq_dec : EqDecision event.
Proof. solve_decision. Defined.

Record machine := { ps : proc; log : list event }.

Inductive outcome (A : Type) :=
| Done (a : A) (m : machine)
| Raised (e : exn) (m : machine)
| Hung (m : machine).
Arguments Done {A} a m.
Arguments Raised {A} e m.
Arguments Hung {A} m.

(** The machine an outcome ends in; for [Hung], the machine when the code
    that does not return was entered. *)
Definition final {A} (o : outcome A) : machine :=
  match o with
  | Done _ m | Raised _ m | Hung m => m
  end.

(** ** Statements as state transformers that may raise *)

Definition M (A : Type) : Type := machine → outcome A.

Global Instance M_ret : MRet M := λ A a m, Done a m.

Global Instance M_bind : MBind M := λ A B f c m,
  match c m with
  | Done a m' => f a m'
  | Raised e m' => Raised e m'
  | Hung m' => Hung m'
  end.

Definition emit (e : event) : M unit := λ m,
  Done tt {| ps := ps m; log := log m ++ [e] |}.

Definition raise {A} (e : exn) : M A := λ m, Raised e m.

Definition get_proc : M proc := λ m, Done (ps m) m.

Definition put_proc (s : proc) : M unit := λ m,
  Done tt {| ps := s; log := log m |}.

(** Foreign code run from a statement of the launcher. *)
Definition run_foreign (c : code) : M unit := λ m,
  match c (ps m) with
  | FReturn s => Done tt {| ps := s; log := log m |}
  | FRaise what s => Raised (ForeignError what) {| ps := s; log := log m |}
  | FHang => Hung m
  end.

(** ** The run time the launcher calls *)

(** [os.environ.setdefault(key, value)]:
    [if key not in self: self[key] = value; return self[key]]. *)
Definition os_environ_setdefault (key value : string) : M string :=
  s ← get_proc;
  match environ s !! key with
  | Some v => emit (EvSetdefault key value false);; mret v
  | None =>
      emit (EvSetdefault key value true);;
      put_proc (set_environ <[key := value]> s);;
      mret value
  end.

(** [os.path.abspath(path)] reads the current directory. *)
Definition os_path_abspath (path : string) : M string :=
  s ← get_proc; mret (posixpath.abspath (cwd s) path).

(** [os.chdir(path)]: raises [OSError] unless [path] is a directory the
    process may enter. *)
Definition os_chdir (W : world) (path : string) : M unit :=
  emit (EvChdir path);;
  if is_dir W path then s ← get_proc; put_proc (set_cwd path s)
  else raise (OSError path).

(** The module object the import system creates before it runs the top
    level of the module found under [name]. *)
Definition fresh_module (name : string) : module_obj :=
  {| mod_name := Some (PStr name); mod_attrs := ∅ |}.

(** The import system running the top level of the module it has put in
    [sys.modules] under [name]: a module whose top level raises is taken
    out of [sys.modules] again and the exception goes on. *)
Definition run_module_body (name : string) (body : code) : M unit := λ m,
  match body (ps m) with
  | FReturn s' => Done tt {| ps := s'; log := log m |}
  | FRaise what s' =>
      Raised (ForeignError what)
        {| ps := set_sys_modules (delete name) s'; log := log m |}
  | FHang => Hung m
  end.

(** [importlib._bootstrap._load_unlocked]: a new module object is put in
    [sys.modules] under [name] and the top level is run in it; the module
    handed back is the one found under [name] afterwards, and a top level
    that has taken it out makes the import fail. *)
Definition load_unlocked (name : string) (body : code) : M addr :=
  s ← get_proc;
  put_proc (set_sys_modules <[name := fresh_addr s]>
              (set_heap <[fresh_addr s := fresh_module name]> s));;
  emit (EvLoad name);;
  run_module_body name body;;
  s' ← get_proc;
  match sys_modules s' !! name with
  | Some a => mret a
  | None => raise (KeyError name)
  end.

(** ["a.b.c"] gives [[("a", "a"); ("a.b", "b"); ("a.b.c", "c")]]: the names
    the import of a dotted name goes through, parents first, each with its
    last component. *)
Fixpoint dotted_chain_from (acc comp rest : string) : list (string * string) :=
  match rest with
  | EmptyString => [(acc, comp)]
  | String c r =>
      if Ascii.eqb c "."%char
      then (acc, comp) :: dotted_chain_from (acc +:+ ".") "" r
      else dotted_chain_from (acc +:+ String c "") (comp +:+ String c "") r
  end.

Definition dotted_chain (name : string) : list (string * string) :=
  dotted_chain_from "" "" name.

(** [setattr(parent_module, child, module)], the last step of the import of
    a submodule; [parents] is empty for a top-level module. *)
Definition set_parent_attr (parents : list (string * string))
    (child : string) (a : addr) : M unit :=
  match parents with
  | [] => mret tt
  | (parent, _) :: _ =>
      s ← get_proc;
      match sys_modules s !! parent with
      | Some ap =>
          put_proc (set_heap
            (alter (λ o, {| mod_name := mod_name o;
                            mod_attrs := <[child := a]> (mod_attrs o) |}) ap)
            s)
      | None => raise (KeyError parent)
      end
  end.

(** [parent_module = sys.modules[parent]], before the module is looked
    for. *)
Definition require_parent (parents : list (string * string)) : M unit :=
  match parents with
  | [] => mret tt
  | (parent, _) :: _ =>
      s ← get_proc;
      match sys_modules s !! parent with
      | Some _ => mret tt
      | None => raise (KeyError parent)
      end
  end.

(** [importlib._bootstrap._find_and_load] on a dotted name, given as its
    chain with the name itself first: a module already in [sys.modules] is
    not loaded again; otherwise the parent package is imported first, the
    module is looked up once more (the parent may have imported it), then
    found, loaded, and set as an attribute of its parent. *)
Fixpoint find_and_load (W : world) (chain : list (string * string))
    : M addr :=
  match chain with
  | [] => raise (ImportError "")
  | (name, child) :: parents =>
      s ← get_proc;
      match sys_modules s !! name with
      | Some a => mret a
      | None =>
          match parents with
          | [] => mret tt
          | _ :: _ => find_and_load W parents;; mret tt
          end;;
          s1 ← get_proc;
          match sys_modules s1 !! name with
          | Some a => mret a
          | None =>
              require_parent parents;;
              match find_module W name s1 with
              | None => raise (ModuleNotFoundError name)
              | Some body =>
                  a ← load_unlocked name body;
                  set_parent_attr parents child a;;
                  mret a
              end
          end
      end
  end.

(** [IMPORT_NAME name] without a from-list: the module is imported; for a
    dotted name the value is the top-level package, imported by name once
    more. *)
Definition import_name (W : world) (name : string) : M addr :=
  a ← find_and_load W (rev (dotted_chain name));
  match dotted_chain name with
  | top :: _ :: _ => find_and_load W [top]
  | _ => mret a
  end.

(** [IMPORT_FROM attr] on the object at [v]: its attribute [attr] if it has
    one, else the module that [sys.modules] holds under the [__name__] of
    [v], a dot and [attr]. *)
Definition import_from (v : addr) (attr : string) : M addr :=
  s ← get_proc;
  match mod_attrs (object_at s v) !! attr with
  | Some a => mret a
  | None =>
      match mod_name (object_at s v) with
      | Some (PStr pkgname) =>
          match sys_modules s !! (pkgname +:+ "." +:+ attr) with
          | Some a => mret a
          | None => raise (ImportError attr)
          end
      | _ => raise (ImportError attr)
      end
  end.

Fixpoint import_from_chain (v : addr) (attrs : list string) : M addr :=
  match attrs with
  | [] => mret v
  | attr :: attrs' => a ← import_from v attr; import_from_chain a attrs'
  end.

(** [import name as x] (and [import name] for a name without a dot):
    [IMPORT_NAME name], then one [IMPORT_FROM] for each component after the
    first. The value is the object bound, as it is when the statement
    completes; for a dotted name it is what the attributes of the packages
    lead to, which need not be the module in [sys.modules]. *)
Definition import_as (W : world) (name : string) : M module_obj :=
  emit (EvImport name);;
  top ← import_name W name;
  a ← import_from_chain top (tail (snd <$> dotted_chain name));
  s ← get_proc;
  mret (object_at s a).

(** [open(path).read()]: a relative [path] is taken from the current
    directory. *)
Definition open_read (W : world) (path : string) : M string :=
  emit (EvOpen path);;
  s ← get_proc;
  match read_text W (posixpath.join (cwd s) path) with
  | Some text => mret text
  | None => raise (OSError path)
  end.

(** [exec(source)] in the launcher's own namespace. *)
Definition exec (W : world) (source : string) : M unit :=
  emit (EvExec source);;
  run_foreign (exec_source W source).

(** [hasattr(mo, '__name__')] and [mo.__name__ == name]. *)
Definition hasattr_name (mo : module_obj) : bool :=
  bool_decide (is_Some (mod_name mo)).

Definition name_is (mo : module_obj) (name : string) : bool :=
  match mod_name mo with
  | Some (PStr s) => String.eqb s name
  | _ => false
  end.

(** ** The launcher *)

Definition STARLETTE_ALLOWED_HOSTS : string := "STARLETTE_ALLOWED_HOSTS".
Definition target_package : string := "shopping_cart_python".
Definition target_module : string := "shopping_cart_python.main".
Definition target_file : string := "shopping_cart_python/main.py".

(** Line 10. *)
Definition configure_environment : M string :=
  os_environ_setdefault STARLETTE_ALLOWED_HOSTS "*".

(** Lines 15 and 16; [file__] is the launcher's [__file__]. *)
Definition establish_working_directory (W : world) (file__ : string)
    : M unit :=
  script_dir ← (p ← os_path_abspath file__; mret (posixpath.dirname p));
  os_chdir W script_dir.

(** Lines 19 to 24. *)
Definition launch_application (W : world) : M unit :=
  main_module ← import_as W target_module;
  if hasattr_name main_module && name_is main_module "__main__"
  then source ← open_read W target_file; exec W source
  else mret tt.

(** The module body; [name__] is the launcher's [__name__]. *)
Definition start_server (W : world) (name__ file__ : string) : M unit :=
  import_as W "os";;
  import_as W "sys";;
  configure_environment;;
  if String.eqb name__ "__main__"
  then establish_working_directory W file__;; launch_application W
  else mret tt.


(** ** Vocabulary of the statements *)

(** The interpreter has [os] and [sys] loaded, as it has after a start-up
    that runs [site]: the launcher's own [import os] and [import sys] then
    run no code. *)
Definition stdlib_ready (s : proc) : Prop :=
  is_Some (sys_modules s !! "os") ∧ is_Some (sys_modules s !! "sys").

(** The value [STARLETTE_ALLOWED_HOSTS] has after line 10. *)
Definition allowed_hosts_after (s : proc) : string :=
  default "*" (environ s !! STARLETTE_ALLOWED_HOSTS).

(** The directory lines 15 and 16 go to. *)
Definition script_dir (s : proc) (file__ : string) : string :=
  posixpath.dirname (posixpath.abspath (cwd s) file__).

(** The process after line 10. *)
Definition configured (s : proc) : proc :=
  match environ s !! STARLETTE_ALLOWED_HOSTS with
  | Some _ => s
  | None => set_environ <[STARLETTE_ALLOWED_HOSTS := "*"]> s
  end.

(** The steps of the launcher: binding the standard modules [os] and [sys]
    (lines 6 and 7), then the four steps of the data and control flow. *)
Inductive step :=
| StdImports
| EnvDefault
| ChangeDir
| ImportTarget
| Rerun.

Global Instance step_eq_dec : EqDecision step.
Proof. solve_decision. Defined.

Definition is_std_module (name : string) : bool :=
  String.eqb name "os" || String.eqb name "sys".

Definition step_of (e : event) : step :=
  match e with
  | EvImport n | EvLoad n => if is_std_module n then StdImports else ImportTarget
  | EvSetdefault _ _ _ => EnvDefault
  | EvChdir _ => ChangeDir
  | EvOpen _ | EvExec _ => Rerun
  end.

(** [may_follow p q]: an event of step [q] may come right after one of step
    [p]. A step comes after the step before it, never before; the default
    and the change of directory are single events. *)
Definition may_follow (p q : step) : bool :=
  match p, q with
  | StdImports, (StdImports | EnvDefault)
  | EnvDefault, ChangeDir
  | ChangeDir, ImportTarget
  | ImportTarget, (ImportTarget | Rerun)
  | Rerun, Rerun => true
  | _, _ => false
  end.

Fixpoint ordered_after (p : step) (tr : list event) : bool :=
  match tr with
  | [] => true
  | e :: tr' => may_follow p (step_of e) && ordered_after (step_of e) tr'
  end.

Definition in_launch_order (tr : list event) : bool :=
  ordered_after StdImports tr.

(** The step of the last event of a log, [StdImports] before any event. *)
Definition last_step (tr : list event) : step :=
  from_option step_of StdImports (last tr).

(** ** Reasoning about statements

    [wp c Q R m]: run from [m], the statement [c] ends in a machine that
    satisfies [Q] (with its value) when it returns, and [R] when it raises
    or does not return. *)
Definition wp {A} (c : M A) (Q : A → machine → Prop) (R : machine → Prop)
    (m : machine) : Prop :=
  match c m with
  | Done a m' => Q a m'
  | Raised _ m' | Hung m' => R m'
  end.

(** The events logged since [m0] are in the order of the launcher's steps,
    the last of them an event of step [p]. *)
Definition ordered_upto (m0 : machine) (p : step) (m : machine) : Prop :=
  ∃ tr, log m = log m0 ++ tr ∧ in_launch_order tr = true ∧ last_step tr = p.

Definition ordered_since (m0 m : machine) : Prop :=
  ∃ tr, log m = log m0 ++ tr ∧ in_launch_order tr = true.

(** The machine after lines 6 to 10, when [os] and [sys] are loaded. *)
Definition after_line_10 (m : machine) : machine :=
  {| ps := configured (ps m);
     log := log m ++
       [EvImport "os"; EvImport "sys";
        EvSetdefault STARLETTE_ALLOWED_HOSTS "*"
          (bool_decide (environ (ps m) !! STARLETTE_ALLOWED_HOSTS = None))] |}.

(** The machine after line 16, when [os.chdir] has succeeded. *)
Definition after_line_16 (file__ : string) (m : machine) : machine :=
  {| ps := set_cwd (script_dir (ps m) file__) (ps (after_line_10 m));
     log := log (after_line_10 m) ++ [EvChdir (script_dir (ps m) file__)] |}.

(** Events of the re-run of the target file (line 24), and the loading of
    the module [name] by the import system. *)
Definition is_rerun (e : event) : bool :=
  match e with
  | EvOpen _ | EvExec _ => true
  | _ => false
  end.

Definition is_load_of (name : string) (e : event) : bool :=
  match e with
  | EvLoad n => String.eqb n name
  | _ => false
  end.

(** Events by which the launcher writes [STARLETTE_ALLOWED_HOSTS]. *)
Definition writes_allowed_hosts (e : event) : bool :=
  match e with
  | EvSetdefault k _ wrote => wrote && String.eqb k STARLETTE_ALLOWED_HOSTS
  | _ => false
  end.

Definition allowed_hosts (s : proc) : option string :=
  environ s !! STARLETTE_ALLOWED_HOSTS.

(** Foreign code that leaves an observation [f] of the process as it found
    it, whenever it comes back. *)
Definition code_preserves {X} (f : proc → X) (c : code) : Prop :=
  ∀ s, match c s with
       | FReturn s' | FRaise _ s' => f s' = f s
       | FHang => True
       end.

Definition imports_preserve {X} (f : proc → X) (W : world) : Prop :=
  ∀ n s body, find_module W n s = Some body → code_preserves f body.

Definition exec_preserves {X} (f : proc → X) (W : world) : Prop :=
  ∀ src, code_preserves f (exec_source W src).

(** Neither the package nor the target module is loaded yet, as in an
    interpreter that has just started the launcher. *)
Definition not_yet_loaded (s : proc) : Prop :=
  sys_modules s !! target_package = None
  ∧ sys_modules s !! target_module = None.

(** What a top level must leave alone, when it returns, for the import of
    line 19 to be a normal one: the entries of the package and of the
    target in [sys.modules], the attribute [main] of the package object,
    and the [__name__] of the target module object. Everything else it may
    change. *)
Definition keeps_bookkeeping (s s' : proc) : Prop :=
  sys_modules s' !! target_package = sys_modules s !! target_package
  ∧ sys_modules s' !! target_module = sys_modules s !! target_module
  ∧ (∀ ap o, sys_modules s !! target_package = Some ap →
             heap s !! ap = Some o →
             ∃ o', heap s' !! ap = Some o'
                   ∧ mod_name o' = mod_name o
                   ∧ mod_attrs o' !! "main" = mod_attrs o !! "main")
  ∧ (∀ a o, sys_modules s !! target_module = Some a →
            heap s !! a = Some o →
            ∃ o', heap s' !! a = Some o' ∧ mod_name o' = mod_name o).

Definition imports_keep_bookkeeping (W : world) : Prop :=
  ∀ n s body s0 s1,
    find_module W n s = Some body → body s0 = FReturn s1 →
    keeps_bookkeeping s0 s1.

(** Two processes that differ at most in their command line. *)
Definition same_but_argv (s1 s2 : proc) : Prop :=
  environ s1 = environ s2 ∧ cwd s1 = cwd s2
  ∧ sys_modules s1 = sys_modules s2 ∧ heap s1 = heap s2.

Definition machines_agree (m1 m2 : machine) : Prop :=
  same_but_argv (ps m1) (ps m2) ∧ log m1 = log m2.

Definition outcomes_agree {A} (o1 o2 : outcome A) : Prop :=
  match o1, o2 with
  | Done a1 m1, Done a2 m2 => a1 = a2 ∧ machines_agree m1 m2
  | Raised e1 m1, Raised e2 m2 => e1 = e2 ∧ machines_agree m1 m2
  | Hung m1, Hung m2 => machines_agree m1 m2
  | _, _ => False
  end.

(** Foreign code whose effect on the rest of the process does not depend on
    the command line. *)
Definition codes_agree (c1 c2 : code) : Prop :=
  ∀ s1 s2, same_but_argv s1 s2 →
    match c1 s1, c2 s2 with
    | FReturn s1', FReturn s2' => same_but_argv s1' s2'
    | FRaise w1 s1', FRaise w2 s2' => w1 = w2 ∧ same_but_argv s1' s2'
    | FHang, FHang => True
    | _, _ => False
    end.

Definition world_ignores_argv (W : world) : Prop :=
  (∀ n s1 s2, same_but_argv s1 s2 →
     match find_module W n s1, find_module W n s2 with
     | Some c1, Some c2 => codes_agree c1 c2
     | None, None => True
     | _, _ => False
     end)
  ∧ ∀ src, codes_agree (exec_source W src) (exec_source W src).

(** A statement whose outcome, the command line apart, does not depend on
    the command line. *)
Definition ignores_argv {A} (c : M A) : Prop :=
  ∀ m1 m2, machines_agree m1 m2 → outcomes_agree (c m1) (c m2).

(** Two statements that, run in processes that differ at most in the
    command line, end alike. *)
Definition run_alike {A} (c1 c2 : M A) : Prop :=
  ∀ m1 m2, machines_agree m1 m2 → outcomes_agree (c1 m1) (c2 m2).



(** After the import of the package: it is in [sys.modules] at [ap], as an
    object that has no attribute [main] yet, and the target is not
    loaded. *)
Definition package_loaded (ap : addr) (s : proc) : Prop :=
  sys_modules s !! target_package = Some ap
  ∧ sys_modules s !! target_module = None
  ∧ ∃ o, heap s !! ap = Some o ∧ mod_attrs o !! "main" = None.

(** After the import of the target: package and target are in
    [sys.modules], the attribute [main] of the package is the target
    module, and the target module goes by its dotted name. *)
Definition target_bound (ap a : addr) (s : proc) : Prop :=
  sys_modules s !! target_package = Some ap
  ∧ sys_modules s !! target_module = Some a
  ∧ (∃ o, heap s !! ap = Some o ∧ mod_attrs o !! "main" = Some a)
  ∧ ∃ o, heap s !! a = Some o ∧ mod_name o = Some (PStr target_module).

(** ** A deployment to run the launcher on *)

(** What [__name__ = new] does at the top level of the module [name]. *)
Definition rename_module (name new : string) (s : proc) : proc :=
  match sys_modules s !! name with
  | Some a =>
      set_heap (alter (λ o, {| mod_name := Some (PStr new);
                               mod_attrs := mod_attrs o |}) a) s
  | None => s
  end.


Module Deployment.

(** The launcher lies in [/srv/app], next to the package
    [shopping_cart_python]; the top level of [main.py] builds the
    application and returns when it is imported, and serves for ever when
    it is run as a script. *)
Definition W : world := {|
  is_dir := λ d, bool_decide (d ∈ ["/"; "/srv"; "/srv/app"; "/home/u"]);
  read_text := λ p,
    if String.eqb p "/srv/app/shopping_cart_python/main.py"
    then Some "app = build(); serve(app) if __name__ == '__main__' else None"
    else None;
  find_module := λ n _,
    if String.eqb n target_package || String.eqb n target_module
    then Some FReturn else None;
  exec_source := λ _ _, FHang
|}.

(** The same place without the package. *)
Definition W_missing : world := {|
  is_dir := is_dir W;
  read_text := λ _, None;
  find_module := λ _ _, None;
  exec_source := exec_source W
|}.

(** The same place with a [main.py] whose top level rebinds its own
    [__name__] to ["__main__"]. *)
Definition W_renaming : world := {|
  is_dir := is_dir W;
  read_text := read_text W;
  find_module := λ n _,
    if String.eqb n target_package then Some FReturn
    else if String.eqb n target_module
    then Some (λ s, FReturn (rename_module target_module "__main__" s))
    else None;
  exec_source := exec_source W
|}.

(** The modules of a started interpreter: [os], [sys] and the program
    itself as [__main__]. *)
Definition std_modules : gmap string addr :=
  <["os" := 0]> (<["sys" := 1]> (<["__main__" := 2]> ∅)).

Definition std_heap : gmap addr module_obj :=
  <[0 := fresh_module "os"]>
    (<[1 := fresh_module "sys"]> (<[2 := fresh_module "__main__"]> ∅)).

Definition boot (env : gmap string string) (args : list string) : machine :=
  {| ps := {| environ := env; cwd := "/home/u"; argv := args;
              sys_modules := std_modules; heap := std_heap |};
     log := [] |}.

Definition file__ : string := "/srv/app/start_server.py".

(** The process of a caller who has set no variable, and of one who has
    set [STARLETTE_ALLOWED_HOSTS=example.com]. *)
Definition m_unset : machine := boot ∅ ["start_server.py"].

Definition m_preset : machine :=
  boot {[ STARLETTE_ALLOWED_HOSTS := "example.com" ]} ["start_server.py"].

(** The import of the target from the launcher's directory, in the
    deployment whose [main.py] renames itself. *)
Definition import_renaming : outcome module_obj :=
  import_as W_renaming target_module (after_line_16 file__ m_unset).

(** Where the launcher ends when the package is missing. *)
Definition m_missing : machine :=
  {| ps := {| environ := {[ STARLETTE_ALLOWED_HOSTS := "*" ]};
              cwd := "/srv/app"; argv := ["start_server.py"];
              sys_modules := std_modules; heap := std_heap |};
     log := [EvImport "os"; EvImport "sys";
             EvSetdefault STARLETTE_ALLOWED_HOSTS "*" true;
             EvChdir "/srv/app"; EvImport target_module] |}.




(** The same caller, with arguments on the command line. *)
Definition m_args : machine :=
  boot ∅ ["start_server.py"; "--port"; "8000"].

Definition m_serve : machine := boot ∅ ["start_server.py"; "--serve"].

(** A deployment whose [main.py] looks at the command line and renames
    itself when it is asked to serve. *)
Definition W_argv : world := {|
  is_dir := is_dir W;
  read_text := read_text W;
  find_module := λ n _,
    if String.eqb n target_package then Some FReturn
    else if String.eqb n target_module
    then Some (λ s,
           if bool_decide ("--serve" ∈ argv s)
           then FReturn (rename_module target_module "__main__" s)
           else FReturn s)
    else None;
  exec_source := exec_source W
|}.

Definition entry_point_module : module_obj :=
  {| mod_name := Some (PStr "__main__"); mod_attrs := ∅ |}.

End Deployment.

(** The deployment of [Deployment.W] with the launcher's directory closed
    to the process: [os.chdir] cannot enter any directory. *)
Definition locked_deployment : world := {|
  is_dir := λ _, false;
  read_text := read_text Deployment.W;
  find_module := find_module Deployment.W;
  exec_source := exec_source Deployment.W
|}.

(** The path of the target file next to a launcher that lies in the
    directory of components [dir]. *)
Definition sibling_target (dir : list string) : string :=
  posixpath.render_abs (dir ++ ["shopping_cart_python"; "main.py"]).

(** The process of a caller who has set [PORT=8000]. *)
Definition m_port : machine :=
  Deployment.boot {[ "PORT" := "8000" ]} ["start_server.py"].

(** ** The model on a few inputs *)

Example abspath_relative :
  posixpath.abspath "/home/u" "../srv/./app//start_server.py"
  = "/home/srv/app/start_server.py".
Proof. reflexivity. Qed.

Example abspath_absolute :
  posixpath.abspath "/home/u" "/srv/app/start_server.py"
  = "/srv/app/start_server.py".
Proof. reflexivity. Qed.

Example dirname_file : posixpath.dirname "/srv/app/start_server.py" = "/srv/app".
Proof. reflexivity. Qed.

Example dirname_root_file : posixpath.dirname "/start_server.py" = "/".
Proof. reflexivity. Qed.

Example dirname_two_slashes : posixpath.dirname "//start_server.py" = "//".
Proof. reflexivity. Qed.

Example normpath_cases :
  map posixpath.normpath ["//a"; "///a"; "/../a"; "a/../.."; ""; "/"; "a/b/"]
  = ["//a"; "/a"; "/a"; ".."; "."; "/"; "a/b"].
Proof. reflexivity. Qed.

Example run_unset :
  let o := start_server Deployment.W "__main__" Deployment.file__
             (Deployment.boot ∅ ["start_server.py"]) in
  (environ (ps (final o)) !! STARLETTE_ALLOWED_HOSTS, cwd (ps (final o)),
   log (final o))
  = (Some "*", "/srv/app",
     [EvImport "os"; EvImport "sys";
      EvSetdefault STARLETTE_ALLOWED_HOSTS "*" true; EvChdir "/srv/app";
      EvImport target_module; EvLoad target_package; EvLoad target_module]).
Proof. vm_compute. reflexivity. Qed.

Example run_preset :
  let o := start_server Deployment.W "__main__" Deployment.file__
             (Deployment.boot {[ STARLETTE_ALLOWED_HOSTS := "example.com" ]} [])
  in environ (ps (final o)) !! STARLETTE_ALLOWED_HOSTS = Some "example.com".
Proof. vm_compute. reflexivity. Qed.

Example run_missing :
  start_server Deployment.W_missing "__main__" Deployment.file__
    Deployment.m_unset
  = Raised (ModuleNotFoundError target_package) Deployment.m_missing.
Proof. vm_compute. reflexivity. Qed.

(** ** Paths: what [dirname] and [normpath] do on a normalised absolute path *)

Section path_facts.
Import posixpath.
Local Arguments String.append !_ _ : simpl nomatch.

Lemma append_assoc (a b c : string) : (a +:+ b) +:+ c = a +:+ (b +:+ c).
Proof. induction a as [|x a IH]; simpl; [done | by rewrite IH]. Qed.

Lemma append_nil_r (a : string) : a +:+ "" = a.
Proof. induction a as [|x a IH]; simpl; [done | by rewrite IH]. Qed.

Lemma rfind_sep_slash_free (s : string) :
  slash_free s = true → rfind_sep s = None.
Proof.
  induction s as [|c s IH]; simpl; [done |].
  intros [Hc Hs]%andb_true_iff. rewrite (IH Hs).
  by destruct (is_sep c).
Qed.

(** The head [dirname] cuts off: everything up to the last slash. *)
Lemma take_upto_last_sep (pre name : string) :
  slash_free name = true →
  ∃ i, rfind_sep (pre +:+ "/" +:+ name) = Some i
       ∧ take (S i) (pre +:+ "/" +:+ name) = pre +:+ "/".
Proof.
  intros Hname. induction pre as [|c pre [i [Hi Ht]]].
  - exists 0. simpl. by rewrite (rfind_sep_slash_free _ Hname).
  - exists (S i). simpl in *. rewrite Hi. split; [done |]. by rewrite Ht.
Qed.

Lemma all_sep_app (a b : string) :
  all_sep (a +:+ b) = all_sep a && all_sep b.
Proof.
  induction a as [|c a IH]; simpl; [done |].
  by rewrite IH, andb_assoc.
Qed.

Lemma rstrip_sep_all (s : string) : all_sep s = true → rstrip_sep s = "".
Proof.
  induction s as [|c s IH]; simpl; [done |].
  intros [Hc Hs]%andb_true_iff. by rewrite (IH Hs), Hc.
Qed.

Lemma rstrip_sep_app_sep (s : string) : rstrip_sep (s +:+ "/") = rstrip_sep s.
Proof. induction s as [|c s IH]; simpl; [done | by rewrite IH]. Qed.

Lemma rstrip_sep_id (s : string) :
  endswith_sep s = false → s ≠ "" → rstrip_sep s = s.
Proof.
  induction s as [|c s IH]; [done |].
  intros He _. simpl in *. destruct s as [|d s].
  - simpl. by rewrite He.
  - rewrite IH by done. done.
Qed.

Lemma endswith_sep_app (a b : string) :
  b ≠ "" → endswith_sep (a +:+ b) = endswith_sep b.
Proof.
  intros Hb. induction a as [|c a IH]; [done |].
  cbn [String.append endswith_sep]. rewrite IH.
  destruct (a +:+ b) as [|d r] eqn:E; [| done].
  destruct a; simpl in E; congruence.
Qed.

Lemma endswith_sep_slash_free (s : string) :
  slash_free s = true → endswith_sep s = false.
Proof.
  induction s as [|c s IH]; [done |].
  cbn [slash_free endswith_sep]. intros [Hc Hs]%andb_true_iff.
  destruct s; [by destruct (is_sep c) | by apply IH].
Qed.

Lemma proper_comp_inv (c : string) :
  proper_comp c = true →
  slash_free c = true ∧ c ≠ "" ∧ c ≠ "." ∧ c ≠ "..".
Proof.
  unfold proper_comp. rewrite !andb_true_iff, !negb_true_iff.
  intros [[[? ?%String.eqb_neq] ?%String.eqb_neq] ?%String.eqb_neq]. done.
Qed.

Lemma proper_comp_head (c : string) :
  proper_comp c = true → ∃ x r, c = String x r ∧ is_sep x = false.
Proof.
  intros (Hs & Hne & _)%proper_comp_inv. destruct c as [|x r]; [done |].
  exists x, r. split; [done |]. simpl in Hs.
  by apply andb_true_iff in Hs as [?%negb_true_iff _].
Qed.

Lemma sep_join_cons (c : string) (cs : list string) :
  cs ≠ [] → sep_join (c :: cs) = c +:+ "/" +:+ sep_join cs.
Proof. by destruct cs. Qed.

Lemma sep_join_snoc (dir : list string) (name : string) :
  dir ≠ [] → sep_join (dir ++ [name]) = sep_join dir +:+ "/" +:+ name.
Proof.
  induction dir as [|c cs IH]; [done |]. intros _.
  destruct cs as [|d cs]; [done |].
  change ((c :: d :: cs) ++ [name]) with (c :: ((d :: cs) ++ [name])).
  rewrite sep_join_cons by done. rewrite IH by done.
  rewrite (sep_join_cons c (d :: cs)) by done.
  by rewrite !append_assoc.
Qed.

Lemma sep_join_proper (dir : list string) :
  dir ≠ [] → Forall (λ c, proper_comp c = true) dir →
  all_sep (sep_join dir) = false ∧ endswith_sep (sep_join dir) = false
  ∧ sep_join dir ≠ "".
Proof.
  induction dir as [|c cs IH]; [done |]. intros _ Hall.
  apply Forall_cons in Hall as [Hc Hcs].
  destruct (proper_comp_head c Hc) as (x & r & -> & Hx).
  apply proper_comp_inv in Hc as (Hsf & _).
  destruct cs as [|d cs].
  - change (sep_join [String x r]) with (String x r).
    split; [simpl; by rewrite Hx |]. split; [| done].
    by apply endswith_sep_slash_free.
  - rewrite sep_join_cons by done.
    destruct IH as (_ & He & Hne); [done | done |].
    split; [simpl; by rewrite Hx |]. split; [| done].
    rewrite <- append_assoc. by rewrite endswith_sep_app.
Qed.

(** [dirname] of the path of a file is the path of its directory. *)
Lemma dirname_render_abs (dir : list string) (name : string) :
  Forall (λ c, proper_comp c = true) dir → slash_free name = true →
  dirname (render_abs (dir ++ [name])) = render_abs dir.
Proof.
  intros Hdir Hname. unfold dirname, render_abs.
  destruct dir as [|c cs].
  - destruct (take_upto_last_sep "" name Hname) as (i & Hi & Ht).
    change ("/" +:+ sep_join ([] ++ [name])) with ("" +:+ "/" +:+ name).
    rewrite Hi. cbn [from_option]. by rewrite Ht.
  - rewrite sep_join_snoc by done.
    set (d := sep_join (c :: cs)).
    destruct (take_upto_last_sep ("/" +:+ d) name Hname) as (i & Hi & Ht).
    rewrite !append_assoc in Hi, Ht. rewrite Hi. cbn [from_option].
    rewrite Ht.
    destruct (sep_join_proper (c :: cs)) as (Ha & He & Hne); [done | done |].
    fold d in Ha, He, Hne.
    assert (all_sep (("/" +:+ d) +:+ "/") = false) as ->.
    { rewrite !all_sep_app, Ha. done. }
    assert ((("/" +:+ d) +:+ "/" =? "")%string = false) as -> by done.
    cbn [negb andb]. rewrite rstrip_sep_app_sep.
    apply rstrip_sep_id; [| done]. by rewrite endswith_sep_app.
Qed.

Lemma split_slash_free (c : string) : slash_free c = true → split c = [c].
Proof.
  induction c as [|x c IH]; [done |]. simpl.
  intros [Hx Hc]%andb_true_iff. apply negb_true_iff in Hx.
  by rewrite Hx, (IH Hc).
Qed.

Lemma split_app_sep (c r : string) :
  slash_free c = true → split (c +:+ "/" +:+ r) = c :: split r.
Proof.
  induction c as [|x c IH]; [done |]. simpl in *.
  intros [Hx Hc]%andb_true_iff. apply negb_true_iff in Hx.
  by rewrite Hx, (IH Hc).
Qed.

Lemma split_sep_join (comps : list string) :
  comps ≠ [] → Forall (λ c, proper_comp c = true) comps →
  split (sep_join comps) = comps.
Proof.
  induction comps as [|c cs IH]; [done |]. intros _ Hall.
  apply Forall_cons in Hall as [(Hc & _)%proper_comp_inv Hcs].
  destruct cs as [|d cs]; [by apply split_slash_free |].
  rewrite sep_join_cons by done. rewrite split_app_sep by done.
  by rewrite IH.
Qed.

Lemma normpath_step_proper (n : nat) (acc : list string) (c : string) :
  proper_comp c = true → normpath_step n acc c = acc ++ [c].
Proof.
  intros (_ & H1 & H2 & H3)%proper_comp_inv. unfold normpath_step.
  apply String.eqb_neq in H1, H2, H3. by rewrite H1, H2, H3.
Qed.

Lemma normpath_loop_proper (n : nat) (comps acc : list string) :
  Forall (λ c, proper_comp c = true) comps →
  fold_left (normpath_step n) comps acc = acc ++ comps.
Proof.
  revert acc. induction comps as [|c cs IH]; intros acc Hall.
  - by rewrite app_nil_r.
  - apply Forall_cons in Hall as [Hc Hcs]. simpl.
    rewrite normpath_step_proper by done. rewrite IH by done.
    by rewrite <- app_assoc.
Qed.

(** [normpath] leaves a normalised absolute path as it is. *)
Lemma normpath_render_abs (comps : list string) :
  Forall (λ c, proper_comp c = true) comps →
  normpath (render_abs comps) = render_abs comps.
Proof.
  intros Hall. unfold normpath, render_abs.
  cbn [String.append String.eqb].
  destruct comps as [|c cs]; [done |].
  destruct (proper_comp_head c) as (x & r & Hc & Hx);
    [by apply Forall_cons in Hall as [? _] |].
  assert (initial_slashes (String "/" (sep_join (c :: cs))) = 1) as ->.
  { subst c. destruct cs; simpl; by rewrite Hx. }
  assert (split (String "/" (sep_join (c :: cs))) = "" :: c :: cs) as ->.
  { cbn [split]. change (is_sep "/") with true. cbn iota.
    by rewrite split_sep_join. }
  change (fold_left (normpath_step 1) ("" :: c :: cs) [])
    with (fold_left (normpath_step 1) (c :: cs) []).
  by rewrite normpath_loop_proper.
Qed.

(** An absolute [__file__] makes [abspath] blind to the current
    directory. *)
Lemma abspath_absolute_file (cwd1 cwd2 file : string) :
  isabs file = true → abspath cwd1 file = abspath cwd2 file.
Proof. unfold abspath. by intros ->. Qed.

End path_facts.

(** ** The statements of the launcher, one by one *)

Ltac unfold_M :=
  unfold mbind, M_bind, mret, M_ret, emit, raise, get_proc, put_proc,
    run_foreign, run_module_body in *.

Lemma os_environ_setdefault_bound (key value v : string) (m : machine) :
  environ (ps m) !! key = Some v →
  os_environ_setdefault key value m
  = Done v {| ps := ps m; log := log m ++ [EvSetdefault key value false] |}.
Proof. intros H. unfold os_environ_setdefault. unfold_M. by rewrite H. Qed.

Lemma os_environ_setdefault_unbound (key value : string) (m : machine) :
  environ (ps m) !! key = None →
  os_environ_setdefault key value m
  = Done value {| ps := set_environ <[key := value]> (ps m);
                  log := log m ++ [EvSetdefault key value true] |}.
Proof. intros H. unfold os_environ_setdefault. unfold_M. by rewrite H. Qed.

(** C1. Whatever the process is like, if [STARLETTE_ALLOWED_HOSTS] is bound
    to [v] before line 10, it is bound to [v] after it: the step returns,
    and writes nothing to the process. *)
Theorem configure_environment_keeps_preset (m : machine) (v : string) :
  environ (ps m) !! STARLETTE_ALLOWED_HOSTS = Some v →
  ∃ m', configure_environment m = Done v m'
        ∧ environ (ps m') !! STARLETTE_ALLOWED_HOSTS = Some v
        ∧ ps m' = ps m.
Proof.
  intros H. unfold configure_environment.
  rewrite (os_environ_setdefault_bound _ _ v) by done.
  eexists. split; [done |]. by simpl.
Qed.

Lemma configure_environment_keeps_preset_witness :
  environ (ps Deployment.m_preset) !! STARLETTE_ALLOWED_HOSTS
  = Some "example.com"
  ∧ ∃ m', configure_environment Deployment.m_preset = Done "example.com" m'
          ∧ environ (ps m') !! STARLETTE_ALLOWED_HOSTS = Some "example.com"
          ∧ ps m' = ps Deployment.m_preset.
Proof.
  assert (environ (ps Deployment.m_preset) !! STARLETTE_ALLOWED_HOSTS
          = Some "example.com") as H by (vm_compute; reflexivity).
  split; [exact H |].
  exact (configure_environment_keeps_preset Deployment.m_preset
           "example.com" H).
Defined.

(** C2. Whatever the process is like, if [STARLETTE_ALLOWED_HOSTS] is unset
    before line 10, it is ["*"] after it, and no other variable has
    changed. *)
Theorem configure_environment_sets_default (m : machine) :
  environ (ps m) !! STARLETTE_ALLOWED_HOSTS = None →
  ∃ m', configure_environment m = Done "*" m'
        ∧ environ (ps m') !! STARLETTE_ALLOWED_HOSTS = Some "*"
        ∧ ∀ k, k ≠ STARLETTE_ALLOWED_HOSTS →
               environ (ps m') !! k = environ (ps m) !! k.
Proof.
  intros H. unfold configure_environment.
  rewrite os_environ_setdefault_unbound by done.
  eexists. split; [done |]. cbn [ps set_environ environ]. split.
  - apply lookup_insert_eq.
  - intros k Hk. by apply lookup_insert_ne.
Qed.

Lemma configure_environment_sets_default_witness :
  environ (ps Deployment.m_unset) !! STARLETTE_ALLOWED_HOSTS = None
  ∧ ∃ m', configure_environment Deployment.m_unset = Done "*" m'
          ∧ environ (ps m') !! STARLETTE_ALLOWED_HOSTS = Some "*"
          ∧ ∀ k, k ≠ STARLETTE_ALLOWED_HOSTS →
                 environ (ps m') !! k = environ (ps Deployment.m_unset) !! k.
Proof.
  assert (environ (ps Deployment.m_unset) !! STARLETTE_ALLOWED_HOSTS = None)
    as H by (vm_compute; reflexivity).
  split; [exact H |].
  exact (configure_environment_sets_default Deployment.m_unset H).
Defined.

(** ** Rules of the program logic *)

Section wp_rules.
Context {A B : Type}.
Implicit Types (Q : A → machine → Prop) (R : machine → Prop).

Lemma wp_bind (c : M A) (k : A → M B) (Q' : B → machine → Prop) R m :
  wp c (λ a m', wp (k a) Q' R m') R m → wp (c ≫= k) Q' R m.
Proof. unfold wp, mbind, M_bind. by destruct (c m). Qed.

Lemma wp_ret (a : A) Q R m : Q a m → wp (mret a) Q R m.
Proof. done. Qed.

Lemma wp_raise (e : exn) Q R m : R m → wp (raise e) Q R m.
Proof. done. Qed.

Lemma wp_mono (c : M A) Q Q' R R' m :
  wp c Q R m → (∀ a m', Q a m' → Q' a m') → (∀ m', R m' → R' m') →
  wp c Q' R' m.
Proof. unfold wp. destruct (c m); auto. Qed.
End wp_rules.

Lemma wp_emit (e : event) Q R m :
  Q tt {| ps := ps m; log := log m ++ [e] |} → wp (emit e) Q R m.
Proof. done. Qed.

Lemma wp_get_proc Q R m : Q (ps m) m → wp get_proc Q R m.
Proof. done. Qed.

Lemma wp_put_proc (s : proc) Q R m :
  Q tt {| ps := s; log := log m |} → wp (put_proc s) Q R m.
Proof. done. Qed.

Lemma wp_run_foreign (c : code) Q R m :
  (∀ s', c (ps m) = FReturn s' → Q tt {| ps := s'; log := log m |}) →
  (∀ what s', c (ps m) = FRaise what s' → R {| ps := s'; log := log m |}) →
  (c (ps m) = FHang → R m) →
  wp (run_foreign c) Q R m.
Proof.
  intros HQ HR HH. unfold wp, run_foreign. destruct (c (ps m)); eauto.
Qed.

Lemma wp_run_module_body (name : string) (body : code) Q R m :
  (∀ s', body (ps m) = FReturn s' → Q tt {| ps := s'; log := log m |}) →
  (∀ what s', body (ps m) = FRaise what s' →
     R {| ps := set_sys_modules (delete name) s'; log := log m |}) →
  (body (ps m) = FHang → R m) →
  wp (run_module_body name body) Q R m.
Proof.
  intros HQ HR HH. unfold wp, run_module_body. destruct (body (ps m)) eqn:E; eauto.
Qed.

Lemma wp_final {A} (c : M A) (Φ : machine → Prop) m :
  wp c (λ _, Φ) Φ m ↔ Φ (final (c m)).
Proof. unfold wp. by destruct (c m). Qed.

Ltac wp_step :=
  lazymatch goal with
  | |- wp (mbind _ _) _ _ _ => apply wp_bind
  | |- wp (mret _) _ _ _ => apply wp_ret
  | |- wp (emit _) _ _ _ => apply wp_emit
  | |- wp get_proc _ _ _ => apply wp_get_proc
  | |- wp (put_proc _) _ _ _ => apply wp_put_proc
  | |- wp (raise _) _ _ _ => apply wp_raise
  | |- wp (run_module_body _ _) _ _ _ =>
      apply wp_run_module_body; [intros ? ? | intros ? ? ? | intros ?]
  | |- wp (run_foreign _) _ _ _ =>
      apply wp_run_foreign; [intros ? ? | intros ? ? ? | intros ?]
  | |- wp (match ?x with _ => _ end) _ _ _ => destruct x eqn:?
  end; cbv beta; cbn [ps log] in *.

Ltac wp_steps := repeat wp_step.

(** ** The order of the launcher's steps *)

Lemma last_step_cons (p : step) (e : event) (tr : list event) :
  from_option step_of p (last (e :: tr))
  = from_option step_of (step_of e) (last tr).
Proof.
  revert p e. induction tr as [|e' tr IH]; intros p e; [done |].
  rewrite last_cons_cons. by rewrite !IH.
Qed.

Lemma ordered_after_app (p : step) (t1 t2 : list event) :
  ordered_after p (t1 ++ t2)
  = ordered_after p t1 && ordered_after (from_option step_of p (last t1)) t2.
Proof.
  revert p. induction t1 as [|e t1 IH]; intros p; [done |].
  rewrite last_step_cons. cbn [app ordered_after].
  by rewrite IH, andb_assoc.
Qed.

Lemma ordered_upto_start (m0 : machine) : ordered_upto m0 StdImports m0.
Proof. exists []. by rewrite app_nil_r. Qed.

Lemma ordered_upto_emit (m0 m : machine) (p : step) (e : event) (s : proc) :
  ordered_upto m0 p m → may_follow p (step_of e) = true →
  ordered_upto m0 (step_of e) {| ps := s; log := log m ++ [e] |}.
Proof.
  intros (tr & Hlog & Hord & Hlast) Hf. exists (tr ++ [e]). cbn [log].
  split; [by rewrite Hlog, app_assoc |]. split.
  - unfold in_launch_order in *. rewrite ordered_after_app, Hord.
    fold (last_step tr). rewrite Hlast. cbn [ordered_after andb].
    by rewrite Hf.
  - unfold last_step. by rewrite last_snoc.
Qed.

Lemma ordered_upto_ps (m0 m : machine) (p : step) (s : proc) :
  ordered_upto m0 p m → ordered_upto m0 p {| ps := s; log := log m |}.
Proof. done. Qed.

Lemma ordered_upto_since (m0 m : machine) (p : step) :
  ordered_upto m0 p m → ordered_since m0 m.
Proof. intros (tr & ? & ? & _). by exists tr. Qed.

Lemma ordered_since_ps (m0 m : machine) (s : proc) :
  ordered_since m0 m → ordered_since m0 {| ps := s; log := log m |}.
Proof. done. Qed.

Create HintDb order.

Local Hint Resolve ordered_upto_emit ordered_upto_ps ordered_upto_since
  ordered_since_ps : order.

(** What every statement of the import system keeps: an assertion [A] on
    the machine that survives the bookkeeping of the import system, the
    loading events of the names at hand, and the top levels it runs. *)
Section import_invariant.
Context (W : world) (A : machine → Prop) (P : string → Prop).
Hypothesis A_sys : ∀ m g,
  A m → A {| ps := set_sys_modules g (ps m); log := log m |}.
Hypothesis A_heap : ∀ m g,
  A m → A {| ps := set_heap g (ps m); log := log m |}.
Hypothesis A_load : ∀ m n,
  P n → A m → A {| ps := ps m; log := log m ++ [EvLoad n] |}.
Hypothesis A_body : ∀ n s body m,
  find_module W n s = Some body → A m →
  match body (ps m) with
  | FReturn s' | FRaise _ s' => A {| ps := s'; log := log m |}
  | FHang => True
  end.

Lemma A_same (m : machine) : A m → A {| ps := ps m; log := log m |}.
Proof. by destruct m. Qed.

Lemma load_unlocked_inv (name : string) (body : code) (s : proc) m :
  find_module W name s = Some body → P name → A m →
  wp (load_unlocked name body) (λ _, A) A m.
Proof.
  intros Hfind Hname Hm. unfold load_unlocked.
  do 6 wp_step.
  assert (A {| ps := set_sys_modules <[name := fresh_addr (ps m)]>
                       (set_heap <[fresh_addr (ps m) := fresh_module name]>
                          (ps m));
               log := log m ++ [EvLoad name] |}) as Hin.
  { apply (A_load {| ps := _; log := _ |}); [done |].
    apply (A_sys {| ps := _; log := _ |}).
    by apply (A_heap {| ps := _; log := _ |}), A_same. }
  pose proof (A_body _ _ _ _ Hfind Hin) as Hbody. cbn [ps log] in Hbody.
  wp_step. wp_step.
  - match goal with H : body _ = _ |- _ => rewrite H in Hbody end.
    wp_steps; done.
  - match goal with H : body _ = _ |- _ => rewrite H in Hbody end.
    by apply (A_sys {| ps := _; log := _ |}).
  - done.
Qed.

Lemma set_parent_attr_inv (parents : list (string * string))
    (child : string) (a : addr) m :
  A m → wp (set_parent_attr parents child a) (λ _, A) A m.
Proof.
  intros Hm. unfold set_parent_attr. destruct parents as [|[p ?] ?].
  - by wp_step.
  - wp_steps; [| done]. by apply A_heap.
Qed.

Lemma require_parent_inv (parents : list (string * string)) m :
  A m → wp (require_parent parents) (λ _, A) A m.
Proof.
  intros Hm. unfold require_parent. destruct parents as [|[p ?] ?];
    by wp_steps.
Qed.

Lemma find_and_load_inv (chain : list (string * string)) m :
  Forall (λ nc, P nc.1) chain → A m →
  wp (find_and_load W chain) (λ _, A) A m.
Proof.
  intros Hall. revert m.
  induction Hall as [|[name child] parents Hname Hparents IH]; intros m Hm;
    cbn [find_and_load].
  - by wp_step.
  - cbn [fst] in Hname. wp_step. wp_step. wp_step; [by wp_step |].
    wp_step.
    assert (wp (match parents with
                | [] => mret tt
                | _ :: _ => find_and_load W parents;; mret tt
                end) (λ _, A) A m) as Hpar.
    { destruct parents; [by wp_step |]. wp_step.
      eapply wp_mono; [by apply IH | | done].
      cbv beta. intros _ m' Hm'. by wp_step. }
    eapply wp_mono; [exact Hpar | | done].
    cbv beta. intros _ m1 Hm1. wp_step. wp_step. wp_step; [by wp_step |].
    wp_step.
    eapply wp_mono; [by apply require_parent_inv | | done].
    cbv beta. intros _ m2 Hm2. wp_step; [| by wp_step]. wp_step.
    eapply wp_mono; [by eapply load_unlocked_inv | | done].
    cbv beta. intros a m3 Hm3. wp_step.
    eapply wp_mono; [by apply set_parent_attr_inv | | done].
    cbv beta. intros _ m4 Hm4. by wp_step.
Qed.

Lemma import_from_chain_inv (attrs : list string) (v : addr) m :
  A m → wp (import_from_chain v attrs) (λ _, A) A m.
Proof.
  revert v m. induction attrs as [|attr attrs IH]; intros v m Hm;
    cbn [import_from_chain].
  - by wp_step.
  - wp_step. unfold import_from.
    wp_steps; solve [done | by apply IH].
Qed.

Lemma import_name_inv (name : string) m :
  Forall (λ nc, P nc.1) (dotted_chain name) → A m →
  wp (import_name W name) (λ _, A) A m.
Proof.
  intros Hall' Hm. unfold import_name. wp_step.
  eapply wp_mono;
    [by apply find_and_load_inv; [apply Forall_rev |] | | done].
  cbv beta. intros a m1 Hm1.
  destruct Hall' as [|top ? Htop Hrest]; [by wp_step |].
  destruct Hrest; [by wp_step |].
  apply find_and_load_inv; [| done]. by constructor.
Qed.

Lemma import_as_inv (name : string) m :
  Forall (λ nc, P nc.1) (dotted_chain name) →
  A {| ps := ps m; log := log m ++ [EvImport name] |} →
  wp (import_as W name) (λ _, A) A m.
Proof.
  intros Hall Hm. unfold import_as. wp_step. wp_step. wp_step.
  eapply wp_mono; [by apply import_name_inv | | done].
  cbv beta. intros top m1 Hm1. wp_step.
  eapply wp_mono; [by apply import_from_chain_inv | | done].
  cbv beta. intros a m2 Hm2. by wp_steps.
Qed.
End import_invariant.

Lemma import_as_ordered (W : world) (n : string) (p q : step) m0 m :
  ordered_upto m0 p m → step_of (EvImport n) = q →
  may_follow p q = true → may_follow q q = true →
  Forall (λ nc, step_of (EvLoad nc.1) = q) (dotted_chain n) →
  wp (import_as W n) (λ _, ordered_upto m0 q) (ordered_since m0) m.
Proof.
  intros Hm Hq Hpq Hqq Hall.
  eapply wp_mono;
    [apply (import_as_inv W (ordered_upto m0 q)
              (λ n', step_of (EvLoad n') = q)) | done | ].
  - intros m' g Hm'. by apply ordered_upto_ps.
  - intros m' g Hm'. by apply ordered_upto_ps.
  - intros m' n' Hn' Hm'. rewrite <- Hn'.
    apply ordered_upto_emit with q; [done | by rewrite Hn'].
  - intros n' s body m' _ Hm'.
    destruct (body (ps m')); [| | done]; by apply ordered_upto_ps.
  - done.
  - rewrite <- Hq. apply ordered_upto_emit with p; [done | by rewrite Hq].
  - intros m'. apply ordered_upto_since.
Qed.

Lemma configure_environment_ordered m0 m :
  ordered_upto m0 StdImports m →
  wp configure_environment (λ _, ordered_upto m0 EnvDefault)
    (ordered_since m0) m.
Proof.
  intros Hm. unfold configure_environment, os_environ_setdefault.
  wp_steps;
    by apply (ordered_upto_emit m0 m StdImports (EvSetdefault _ _ _)).
Qed.

Lemma establish_working_directory_ordered (W : world) (file__ : string) m0 m :
  ordered_upto m0 EnvDefault m →
  wp (establish_working_directory W file__) (λ _, ordered_upto m0 ChangeDir)
    (ordered_since m0) m.
Proof.
  intros Hm. unfold establish_working_directory, os_path_abspath, os_chdir.
  pose proof (λ d, ordered_upto_emit m0 m EnvDefault (EvChdir d) (ps m) Hm
                     eq_refl) as He.
  wp_steps; eauto with order.
Qed.

Lemma launch_application_ordered (W : world) m0 m :
  ordered_upto m0 ChangeDir m →
  wp (launch_application W) (λ _, ordered_since m0) (ordered_since m0) m.
Proof.
  intros Hm. unfold launch_application. wp_step.
  eapply wp_mono;
    [apply (import_as_ordered W target_module ChangeDir ImportTarget);
       (done || by repeat constructor) | | done].
  cbv beta. intros mo m1 Hm1.
  destruct (hasattr_name mo && name_is mo "__main__");
    [| wp_step; eauto with order].
  unfold open_read, exec.
  pose proof (ordered_upto_emit m0 m1 ImportTarget (EvOpen target_file)
                (ps m1) Hm1 eq_refl) as Ho.
  pose proof (λ src s, ordered_upto_emit m0 _ Rerun (EvExec src) s Ho eq_refl)
    as He.
  cbn [step_of log] in Ho, He.
  wp_steps; eauto with order.
Qed.

Lemma start_server_ordered (W : world) (name__ file__ : string) m :
  wp (start_server W name__ file__) (λ _, ordered_since m) (ordered_since m) m.
Proof.
  unfold start_server. wp_step.
  eapply wp_mono;
    [apply (import_as_ordered W "os" StdImports StdImports);
       (done || by repeat constructor || apply ordered_upto_start) | | done].
  cbv beta. intros _ m1 Hm1. wp_step.
  eapply wp_mono;
    [apply (import_as_ordered W "sys" StdImports StdImports);
       (done || by repeat constructor) | | done].
  cbv beta. intros _ m2 Hm2. wp_step.
  eapply wp_mono; [by apply configure_environment_ordered | | done].
  cbv beta. intros _ m3 Hm3.
  destruct (String.eqb name__ "__main__"); [| wp_step; eauto with order].
  wp_step.
  eapply wp_mono; [by apply establish_working_directory_ordered | | done].
  cbv beta. intros _ m4 Hm4. by apply launch_application_ordered.
Qed.

(** ** The launcher, statement by statement *)

Lemma import_as_loaded (W : world) (n : string) (a : addr) m :
  dotted_chain n = [(n, n)] → sys_modules (ps m) !! n = Some a →
  import_as W n m
  = Done (object_at (ps m) a) {| ps := ps m; log := log m ++ [EvImport n] |}.
Proof.
  intros Hn Ha. unfold import_as, import_name. rewrite Hn.
  cbn [rev app fmap list_fmap snd tail import_from_chain find_and_load].
  unfold_M. cbn [ps log]. by rewrite Ha.
Qed.

Lemma configure_environment_run m :
  configure_environment m
  = Done (allowed_hosts_after (ps m))
      {| ps := configured (ps m);
         log := log m ++
           [EvSetdefault STARLETTE_ALLOWED_HOSTS "*"
              (bool_decide (environ (ps m) !! STARLETTE_ALLOWED_HOSTS = None))]
      |}.
Proof.
  unfold configure_environment, allowed_hosts_after, configured.
  destruct (environ (ps m) !! STARLETTE_ALLOWED_HOSTS) as [v|] eqn:E.
  - by rewrite (os_environ_setdefault_bound _ _ v).
  - by rewrite os_environ_setdefault_unbound.
Qed.

Lemma establish_working_directory_run (W : world) (file__ : string) m :
  establish_working_directory W file__ m
  = let d := script_dir (ps m) file__ in
    if is_dir W d
    then Done tt {| ps := set_cwd d (ps m); log := log m ++ [EvChdir d] |}
    else Raised (OSError d) {| ps := ps m; log := log m ++ [EvChdir d] |}.
Proof.
  unfold establish_working_directory, os_path_abspath, os_chdir, script_dir.
  unfold_M. cbn [ps log]. by destruct (is_dir W _).
Qed.

Lemma start_server_run (W : world) (name__ file__ : string) m :
  stdlib_ready (ps m) →
  start_server W name__ file__ m
  = if String.eqb name__ "__main__"
    then (establish_working_directory W file__;; launch_application W)
           (after_line_10 m)
    else Done tt (after_line_10 m).
Proof.
  intros [[os Hos] [sys Hsys]]. unfold start_server.
  unfold mbind at 1, M_bind at 1.
  rewrite (import_as_loaded W "os" os) by done.
  unfold mbind at 1, M_bind at 1.
  rewrite (import_as_loaded W "sys" sys) by done.
  unfold mbind at 1, M_bind at 1.
  rewrite configure_environment_run. cbn [ps log].
  unfold after_line_10. rewrite <- !app_assoc. cbn [app].
  by destruct (String.eqb name__ "__main__").
Qed.

Lemma script_dir_configured (s : proc) (file__ : string) :
  script_dir (configured s) file__ = script_dir s file__.
Proof.
  unfold script_dir, configured.
  by destruct (environ s !! STARLETTE_ALLOWED_HOSTS).
Qed.

Lemma start_server_main (W : world) (file__ : string) m :
  stdlib_ready (ps m) → is_dir W (script_dir (ps m) file__) = true →
  start_server W "__main__" file__ m
  = launch_application W (after_line_16 file__ m).
Proof.
  intros Hstd Hdir. rewrite start_server_run by done.
  change (String.eqb "__main__" "__main__") with true. cbv iota.
  unfold mbind at 1, M_bind at 1.
  rewrite establish_working_directory_run. cbv zeta.
  change (ps (after_line_10 m)) with (configured (ps m)).
  rewrite script_dir_configured, Hdir. done.
Qed.

(** ** The working directory *)

Lemma chdir_to_directory_of (W : world) (file__ : string)
    (dir : list string) (name : string) m :
  Forall (λ c, posixpath.proper_comp c = true) dir →
  posixpath.slash_free name = true →
  posixpath.abspath (cwd (ps m)) file__ = posixpath.render_abs (dir ++ [name]) →
  is_dir W (posixpath.render_abs dir) = true →
  establish_working_directory W file__ m
  = Done tt {| ps := set_cwd (posixpath.render_abs dir) (ps m);
               log := log m ++ [EvChdir (posixpath.render_abs dir)] |}.
Proof.
  intros Hdir Hname Habs Hd. rewrite establish_working_directory_run.
  unfold script_dir. rewrite Habs, dirname_render_abs by done.
  cbv zeta. by rewrite Hd.
Qed.

(** C3. Let the launcher file be [name] in the directory of components
    [dir], and let [__file__] name it, as an absolute path or relative to
    the directory the caller starts the launcher from. Then, whatever that
    directory is, lines 15 and 16 return and leave the process in the
    directory of the launcher file, given as an absolute path that does not
    mention where the caller was. *)
Theorem establish_working_directory_reaches_script_dir (W : world)
    (file__ : string) (dir : list string) (name : string) (m : machine) :
  Forall (λ c, posixpath.proper_comp c = true) dir →
  posixpath.slash_free name = true →
  posixpath.abspath (cwd (ps m)) file__ = posixpath.render_abs (dir ++ [name]) →
  is_dir W (posixpath.render_abs dir) = true →
  ∃ m', establish_working_directory W file__ m = Done tt m'
        ∧ cwd (ps m') = posixpath.render_abs dir
        ∧ posixpath.isabs (cwd (ps m')) = true.
Proof.
  intros Hdir Hname Habs Hd.
  rewrite (chdir_to_directory_of W file__ dir name) by done.
  eexists. split; [done |]. by cbn.
Qed.

Lemma establish_working_directory_reaches_script_dir_witness :
  (Forall (λ c, posixpath.proper_comp c = true) ["srv"; "app"]
   ∧ posixpath.slash_free "start_server.py" = true
   ∧ posixpath.abspath (cwd (ps Deployment.m_unset)) "../../srv/app/start_server.py"
     = posixpath.render_abs (["srv"; "app"] ++ ["start_server.py"])
   ∧ is_dir Deployment.W (posixpath.render_abs ["srv"; "app"]) = true)
  ∧ ∃ m', establish_working_directory Deployment.W
            "../../srv/app/start_server.py" Deployment.m_unset
          = Done tt m'
          ∧ cwd (ps m') = posixpath.render_abs ["srv"; "app"]
          ∧ posixpath.isabs (cwd (ps m')) = true.
Proof.
  assert (Forall (λ c, posixpath.proper_comp c = true) ["srv"; "app"]) as H1
    by (repeat constructor).
  split; [repeat split; [exact H1 | ..]; vm_compute; reflexivity |].
  apply (establish_working_directory_reaches_script_dir Deployment.W
           "../../srv/app/start_server.py" ["srv"; "app"] "start_server.py");
    [exact H1 | vm_compute; reflexivity ..].
Defined.

(** With an absolute, normalised [__file__], as the interpreter gives the
    program it runs, the directory the caller was in plays no part at
    all. *)
Lemma establish_working_directory_absolute_file (W : world)
    (dir : list string) (name : string) (m : machine) :
  Forall (λ c, posixpath.proper_comp c = true) (dir ++ [name]) →
  is_dir W (posixpath.render_abs dir) = true →
  ∃ m', establish_working_directory W (posixpath.render_abs (dir ++ [name])) m
        = Done tt m'
        ∧ cwd (ps m') = posixpath.render_abs dir.
Proof.
  intros Hall Hd. pose proof Hall as Hall'.
  apply Forall_app in Hall' as [Hdir Hname].
  apply Forall_singleton, proper_comp_inv in Hname as [Hname _].
  rewrite (chdir_to_directory_of W _ dir name); [by eexists | done | done | | done].
  unfold posixpath.abspath.
  change (posixpath.isabs (posixpath.render_abs (dir ++ [name]))) with true.
  cbv iota. by apply normpath_render_abs.
Qed.

Lemma establish_working_directory_caller_independent (W : world)
    (file__ : string) (m1 m2 : machine) :
  posixpath.isabs file__ = true →
  is_dir W (script_dir (ps m1) file__) = true →
  ∃ m1' m2', establish_working_directory W file__ m1 = Done tt m1'
             ∧ establish_working_directory W file__ m2 = Done tt m2'
             ∧ cwd (ps m1') = cwd (ps m2').
Proof.
  intros Habs Hdir. rewrite !establish_working_directory_run. cbv zeta.
  assert (script_dir (ps m2) file__ = script_dir (ps m1) file__) as ->
    by (unfold script_dir; f_equal; by apply abspath_absolute_file).
  rewrite Hdir. by eexists _, _.
Qed.

(** ** Import used as a module *)

(** C9. When the launcher is imported and not run ([__name__] is not
    ["__main__"]), in an interpreter that has [os] and [sys] loaded, it
    returns; all it has done to the process is the default of
    [STARLETTE_ALLOWED_HOSTS]: the working directory and [sys.modules] are as
    before, and after its two standard imports it has logged the default
    and nothing else, no change of directory, no import, no load, no
    re-run. *)
Theorem start_server_imported_only_sets_default (W : world)
    (name__ file__ : string) (m : machine) :
  stdlib_ready (ps m) → name__ ≠ "__main__" →
  ∃ m', start_server W name__ file__ m = Done tt m'
        ∧ ps m' = configured (ps m)
        ∧ cwd (ps m') = cwd (ps m)
        ∧ sys_modules (ps m') = sys_modules (ps m)
        ∧ (∀ k, k ≠ STARLETTE_ALLOWED_HOSTS →
                environ (ps m') !! k = environ (ps m) !! k)
        ∧ ∃ wrote, log m' = log m ++
            [EvImport "os"; EvImport "sys";
             EvSetdefault STARLETTE_ALLOWED_HOSTS "*" wrote].
Proof.
  intros Hstd Hname. rewrite start_server_run by done.
  apply String.eqb_neq in Hname. rewrite Hname.
  eexists. split; [done |]. cbn [after_line_10 ps log].
  unfold configured.
  destruct (environ (ps m) !! STARLETTE_ALLOWED_HOSTS) eqn:E;
    repeat split; eauto.
  intros k Hk. cbn. by rewrite lookup_insert_ne.
Qed.

Lemma start_server_imported_only_sets_default_witness :
  (stdlib_ready (ps Deployment.m_unset) ∧ "start_server" ≠ "__main__")
  ∧ ∃ m', start_server Deployment.W "start_server" Deployment.file__
            Deployment.m_unset = Done tt m'
        ∧ ps m' = configured (ps Deployment.m_unset)
        ∧ cwd (ps m') = cwd (ps Deployment.m_unset)
        ∧ sys_modules (ps m') = sys_modules (ps Deployment.m_unset)
        ∧ (∀ k, k ≠ STARLETTE_ALLOWED_HOSTS →
                environ (ps m') !! k
                = environ (ps Deployment.m_unset) !! k)
        ∧ ∃ wrote, log m' = log Deployment.m_unset ++
            [EvImport "os"; EvImport "sys";
             EvSetdefault STARLETTE_ALLOWED_HOSTS "*" wrote].
Proof.
  assert (stdlib_ready (ps Deployment.m_unset)) as H1
    by (split; vm_compute; eauto).
  assert ("start_server" ≠ "__main__") as H2 by discriminate.
  split; [by split |].
  exact (start_server_imported_only_sets_default Deployment.W "start_server"
           Deployment.file__ Deployment.m_unset H1 H2).
Defined.

(** ** The import of the target and the re-run *)

Lemma entry_point_test (mo : module_obj) :
  hasattr_name mo && name_is mo "__main__"
  = bool_decide (mod_name mo = Some (PStr "__main__")).
Proof.
  unfold hasattr_name, name_is. destruct (mod_name mo) as [[s|]|].
  - cbn. destruct (String.eqb_spec s "__main__") as [->|Hne].
    + by rewrite bool_decide_eq_true_2.
    + rewrite bool_decide_eq_false_2; [done | congruence].
  - done.
  - done.
Qed.

Lemma rerun_run (W : world) m :
  (source ← open_read W target_file; exec W source) m
  = match read_text W (posixpath.join (cwd (ps m)) target_file) with
    | Some source =>
        run_foreign (exec_source W source)
          {| ps := ps m;
             log := log m ++ [EvOpen target_file; EvExec source] |}
    | None =>
        Raised (OSError target_file)
          {| ps := ps m; log := log m ++ [EvOpen target_file] |}
    end.
Proof.
  unfold open_read, exec. unfold mbind, M_bind, mret, M_ret, emit, raise,
    get_proc. cbn [ps log].
  destruct (read_text W _); [| done]. cbn [ps log].
  by rewrite <- app_assoc.
Qed.

Lemma launch_application_after_import (W : world) (mo : module_obj) m m1 :
  import_as W target_module m = Done mo m1 →
  launch_application W m
  = if bool_decide (mod_name mo = Some (PStr "__main__"))
    then (source ← open_read W target_file; exec W source) m1
    else Done tt m1.
Proof.
  intros Himp. unfold launch_application. unfold mbind at 1, M_bind at 1.
  rewrite Himp, entry_point_test. by case_bool_decide.
Qed.

Lemma launch_application_import_raised (W : world) (e : exn) m m1 :
  import_as W target_module m = Raised e m1 →
  launch_application W m = Raised e m1.
Proof.
  intros Himp. unfold launch_application. unfold mbind at 1, M_bind at 1.
  by rewrite Himp.
Qed.

(** C4. Run as the program, in an interpreter with [os] and [sys] loaded
    and with the launcher's directory to go to, let the import of the
    target return the module [mo] and leave the machine [m1]. If the
    [__name__] of [mo] is ["__main__"], the launcher goes on to open
    [shopping_cart_python/main.py], read its text and hand that very text
    to [exec] (or raises, when the file cannot be read); if not, it
    returns from [m1] at once: nothing is opened, nothing is executed. *)
Theorem rerun_iff_entry_point (W : world) (file__ : string)
    (mo : module_obj) (m m1 : machine) :
  stdlib_ready (ps m) → is_dir W (script_dir (ps m) file__) = true →
  import_as W target_module (after_line_16 file__ m) = Done mo m1 →
  (mod_name mo = Some (PStr "__main__") →
   start_server W "__main__" file__ m
   = match read_text W (posixpath.join (cwd (ps m1)) target_file) with
     | Some source =>
         run_foreign (exec_source W source)
           {| ps := ps m1;
              log := log m1 ++ [EvOpen target_file; EvExec source] |}
     | None =>
         Raised (OSError target_file)
           {| ps := ps m1; log := log m1 ++ [EvOpen target_file] |}
     end)
  ∧ (mod_name mo ≠ Some (PStr "__main__") →
     start_server W "__main__" file__ m = Done tt m1).
Proof.
  intros Hstd Hdir Himp. rewrite start_server_main by done.
  rewrite (launch_application_after_import W mo _ m1) by done.
  split; intros Hname.
  - rewrite bool_decide_eq_true_2 by done. apply rerun_run.
  - by rewrite bool_decide_eq_false_2.
Qed.

Lemma stdlib_ready_boot (env : gmap string string) (args : list string) :
  stdlib_ready (ps (Deployment.boot env args)).
Proof. split; vm_compute; eauto. Qed.

Lemma rerun_iff_entry_point_witness :
  (stdlib_ready (ps Deployment.m_unset)
   ∧ is_dir Deployment.W_renaming
       (script_dir (ps Deployment.m_unset) Deployment.file__) = true
   ∧ Deployment.import_renaming
     = Done Deployment.entry_point_module (final Deployment.import_renaming))
  ∧ (mod_name Deployment.entry_point_module = Some (PStr "__main__") →
     start_server Deployment.W_renaming "__main__" Deployment.file__
       Deployment.m_unset
     = match read_text Deployment.W_renaming
               (posixpath.join (cwd (ps (final Deployment.import_renaming)))
                  target_file) with
       | Some source =>
           run_foreign (exec_source Deployment.W_renaming source)
             {| ps := ps (final Deployment.import_renaming);
                log := log (final Deployment.import_renaming)
                       ++ [EvOpen target_file; EvExec source] |}
       | None =>
           Raised (OSError target_file)
             {| ps := ps (final Deployment.import_renaming);
                log := log (final Deployment.import_renaming)
                       ++ [EvOpen target_file] |}
       end)
  ∧ (mod_name Deployment.entry_point_module ≠ Some (PStr "__main__") →
     start_server Deployment.W_renaming "__main__" Deployment.file__
       Deployment.m_unset
     = Done tt (final Deployment.import_renaming)).
Proof.
  assert (is_dir Deployment.W_renaming
            (script_dir (ps Deployment.m_unset) Deployment.file__) = true)
    as H2 by (vm_compute; reflexivity).
  assert (Deployment.import_renaming
          = Done Deployment.entry_point_module
              (final Deployment.import_renaming))
    as H3 by (vm_compute; reflexivity).
  split; [split; [apply stdlib_ready_boot | by split] |].
  exact (rerun_iff_entry_point Deployment.W_renaming Deployment.file__
           Deployment.entry_point_module Deployment.m_unset
           (final Deployment.import_renaming) (stdlib_ready_boot _ _) H2 H3).
Defined.

Example run_renaming :
  let o := start_server Deployment.W_renaming "__main__" Deployment.file__
             Deployment.m_unset in
  match o with Hung _ => True | _ => False end
  ∧ List.filter is_rerun (log (final o))
    = [EvOpen target_file;
       EvExec "app = build(); serve(app) if __name__ == '__main__' else None"].
Proof. vm_compute. done. Qed.

(** ** What the import leaves alone *)

Section import_preserves.
Context {X : Type} (f : proc → X) (W : world).
Hypothesis f_sys_modules : ∀ g s, f (set_sys_modules g s) = f s.
Hypothesis f_heap : ∀ g s, f (set_heap g s) = f s.
Hypothesis W_preserves : imports_preserve f W.

Lemma import_as_preserves (n : string) (x : X) m :
  f (ps m) = x →
  wp (import_as W n) (λ _ m', f (ps m') = x) (λ m', f (ps m') = x) m.
Proof.
  intros Hx.
  apply (import_as_inv W (λ m', f (ps m') = x) (λ _, True)).
  - intros m' g Hm'. cbn [ps]. by rewrite f_sys_modules.
  - intros m' g Hm'. cbn [ps]. by rewrite f_heap.
  - done.
  - intros n' s body m' Hfind Hm'.
    pose proof (W_preserves n' s body Hfind (ps m')) as Hp.
    destruct (body (ps m')); [| | done]; cbn [ps]; congruence.
  - by apply Forall_true.
  - done.
Qed.
End import_preserves.

Lemma allowed_hosts_configured (s : proc) :
  allowed_hosts (configured s) = Some (allowed_hosts_after s).
Proof.
  unfold allowed_hosts, configured, allowed_hosts_after.
  destruct (environ s !! STARLETTE_ALLOWED_HOSTS) eqn:E; [done |].
  cbn. apply lookup_insert_eq.
Qed.

(** C5. Run as the program, in an interpreter with [os] and [sys] loaded
    and with the launcher's directory to go to, let the import of the
    target raise [e] and leave the machine [m3]. Then the launcher ends
    with that same exception and in that same machine: it catches
    nothing, translates nothing and undoes nothing. And unless the code the
    import has run changed them itself, [STARLETTE_ALLOWED_HOSTS] has the
    value line 10 gave it and the working directory is the launcher's. *)
Theorem import_failure_unrecovered (W : world) (file__ : string) (e : exn)
    (m m3 : machine) :
  stdlib_ready (ps m) → is_dir W (script_dir (ps m) file__) = true →
  import_as W target_module (after_line_16 file__ m) = Raised e m3 →
  start_server W "__main__" file__ m = Raised e m3
  ∧ (imports_preserve allowed_hosts W → imports_preserve cwd W →
     allowed_hosts (ps m3) = Some (allowed_hosts_after (ps m))
     ∧ cwd (ps m3) = script_dir (ps m) file__).
Proof.
  intros Hstd Hdir Himp. rewrite start_server_main by done.
  split; [by apply launch_application_import_raised |].
  intros Hhosts Hcwd. split.
  - pose proof (import_as_preserves allowed_hosts W (λ _ _, eq_refl)
                  (λ _ _, eq_refl) Hhosts
                  target_module (Some (allowed_hosts_after (ps m)))
                  (after_line_16 file__ m)) as Hwp.
    unfold wp in Hwp. rewrite Himp in Hwp. apply Hwp.
    apply allowed_hosts_configured.
  - pose proof (import_as_preserves cwd W (λ _ _, eq_refl)
                  (λ _ _, eq_refl) Hcwd
                  target_module (script_dir (ps m) file__)
                  (after_line_16 file__ m)) as Hwp.
    unfold wp in Hwp. rewrite Himp in Hwp. by apply Hwp.
Qed.

Lemma missing_preserves {X} (f : proc → X) :
  imports_preserve f Deployment.W_missing.
Proof. intros n s body Hfind. discriminate Hfind. Qed.

Lemma import_failure_unrecovered_witness :
  (stdlib_ready (ps Deployment.m_unset)
   ∧ is_dir Deployment.W_missing
       (script_dir (ps Deployment.m_unset) Deployment.file__) = true
   ∧ import_as Deployment.W_missing target_module
       (after_line_16 Deployment.file__ Deployment.m_unset)
     = Raised (ModuleNotFoundError target_package) Deployment.m_missing)
  ∧ start_server Deployment.W_missing "__main__" Deployment.file__
      Deployment.m_unset
    = Raised (ModuleNotFoundError target_package) Deployment.m_missing
  ∧ (imports_preserve allowed_hosts Deployment.W_missing →
     imports_preserve cwd Deployment.W_missing →
     allowed_hosts (ps Deployment.m_missing)
     = Some (allowed_hosts_after (ps Deployment.m_unset))
     ∧ cwd (ps Deployment.m_missing)
       = script_dir (ps Deployment.m_unset) Deployment.file__).
Proof.
  assert (is_dir Deployment.W_missing
            (script_dir (ps Deployment.m_unset) Deployment.file__) = true)
    as H2 by (vm_compute; reflexivity).
  assert (import_as Deployment.W_missing target_module
            (after_line_16 Deployment.file__ Deployment.m_unset)
          = Raised (ModuleNotFoundError target_package) Deployment.m_missing)
    as H3 by (vm_compute; reflexivity).
  split; [split; [apply stdlib_ready_boot | by split] |].
  exact (import_failure_unrecovered Deployment.W_missing Deployment.file__
           (ModuleNotFoundError target_package) Deployment.m_unset
           Deployment.m_missing (stdlib_ready_boot _ _) H2 H3).
Defined.

Example missing_settings_stay :
  allowed_hosts (ps Deployment.m_missing) = Some "*"
  ∧ cwd (ps Deployment.m_missing) = "/srv/app".
Proof. vm_compute. done. Qed.

(** ** The one write of the variable *)

Lemma ordered_writes_once (p : step) (tr : list event) :
  ordered_after p tr = true →
  List.length (List.filter writes_allowed_hosts tr)
  ≤ if decide (p = StdImports) then 1 else 0.
Proof.
  revert p. induction tr as [|e tr IH]; intros p; cbn [ordered_after].
  - intros _. cbn. case_decide; lia.
  - intros [Hf Hord]%andb_true_iff. specialize (IH _ Hord).
    cbn [List.filter].
    destruct e; cbn [writes_allowed_hosts step_of] in *;
      try (destruct (is_std_module name));
      try (destruct (wrote && String.eqb key STARLETTE_ALLOWED_HOSTS));
      destruct p; try discriminate Hf;
      cbn [List.length] in *; repeat case_decide; try done; lia.
Qed.

Lemma establish_working_directory_hosts (W : world) (file__ : string)
    (x : option string) m :
  allowed_hosts (ps m) = x →
  wp (establish_working_directory W file__)
    (λ _ m', allowed_hosts (ps m') = x) (λ m', allowed_hosts (ps m') = x) m.
Proof.
  intros Hx. unfold wp. rewrite establish_working_directory_run. cbv zeta.
  by destruct (is_dir W _).
Qed.

Lemma launch_application_hosts (W : world) (x : option string) m :
  imports_preserve allowed_hosts W → exec_preserves allowed_hosts W →
  allowed_hosts (ps m) = x →
  wp (launch_application W)
    (λ _ m', allowed_hosts (ps m') = x) (λ m', allowed_hosts (ps m') = x) m.
Proof.
  intros Himp Hexec Hx. unfold launch_application. wp_step.
  eapply wp_mono;
    [by apply (import_as_preserves allowed_hosts W (λ _ _, eq_refl)
                 (λ _ _, eq_refl)) | | done].
  cbv beta. intros mo m1 Hm1.
  destruct (hasattr_name mo && name_is mo "__main__"); [| by wp_step].
  unfold open_read, exec. wp_steps; try done;
    match goal with
    | Hb : exec_source _ ?src ?s0 = _ |- _ =>
        pose proof (Hexec src s0) as Hp; rewrite Hb in Hp
    end; congruence.
Qed.

(** C7. In every run of the launcher, whatever its outcome, the launcher
    writes [STARLETTE_ALLOWED_HOSTS] at most once: among the events of the
    run, which are in the order of the steps, at most one is a write of the
    variable, and that one is the call of line 10. And when the code the
    launcher hands over to (the imported modules, the text it executes)
    leaves the variable alone, the run ends, however it ends, with the
    variable as line 10 left it. *)
Theorem allowed_hosts_written_once (W : world) (name__ file__ : string)
    (m : machine) :
  (∃ tr, log (final (start_server W name__ file__ m)) = log m ++ tr
         ∧ in_launch_order tr = true
         ∧ List.length (List.filter writes_allowed_hosts tr) ≤ 1
         ∧ ∀ e, e ∈ tr → writes_allowed_hosts e = true →
                step_of e = EnvDefault)
  ∧ (stdlib_ready (ps m) → imports_preserve allowed_hosts W →
     exec_preserves allowed_hosts W →
     allowed_hosts (ps (final (start_server W name__ file__ m)))
     = Some (allowed_hosts_after (ps m))).
Proof.
  split.
  - destruct (proj1 (wp_final _ (ordered_since m) m)
                (start_server_ordered W name__ file__ m)) as (tr & Hlog & Hord).
    exists tr. split; [done |]. split; [done |]. split.
    + by apply (ordered_writes_once StdImports) in Hord.
    + intros e _ He. destruct e; try discriminate He. done.
  - intros Hstd Himp Hexec. rewrite start_server_run by done.
    destruct (String.eqb name__ "__main__").
    + apply (wp_final _ (λ m', allowed_hosts (ps m')
                               = Some (allowed_hosts_after (ps m)))).
      wp_step.
      eapply wp_mono;
        [apply establish_working_directory_hosts, allowed_hosts_configured
        | | done].
      cbv beta. intros _ m1 Hm1. by apply launch_application_hosts.
    + apply allowed_hosts_configured.
Qed.

Lemma deployment_preserves {X} (f : proc → X) :
  imports_preserve f Deployment.W.
Proof.
  intros n s body Hfind s0. cbn in Hfind.
  destruct (String.eqb n target_package || String.eqb n target_module);
    [| discriminate Hfind].
  by injection Hfind as <-.
Qed.

Lemma deployment_exec_preserves {X} (f : proc → X) :
  exec_preserves f Deployment.W.
Proof. intros src s. done. Qed.

Lemma allowed_hosts_written_once_witness :
  (stdlib_ready (ps Deployment.m_preset)
   ∧ imports_preserve allowed_hosts Deployment.W
   ∧ exec_preserves allowed_hosts Deployment.W)
  ∧ (∃ tr, log (final (start_server Deployment.W "__main__" Deployment.file__
                         Deployment.m_preset))
           = log Deployment.m_preset ++ tr
           ∧ in_launch_order tr = true
           ∧ List.length (List.filter writes_allowed_hosts tr) ≤ 1
           ∧ ∀ e, e ∈ tr → writes_allowed_hosts e = true →
                  step_of e = EnvDefault)
  ∧ allowed_hosts (ps (final (start_server Deployment.W "__main__"
                                Deployment.file__ Deployment.m_preset)))
    = Some (allowed_hosts_after (ps Deployment.m_preset)).
Proof.
  pose proof (stdlib_ready_boot {[ STARLETTE_ALLOWED_HOSTS := "example.com" ]}
                ["start_server.py"]) as H1.
  pose proof (deployment_preserves allowed_hosts) as H2.
  pose proof (deployment_exec_preserves allowed_hosts) as H3.
  split; [by repeat split |].
  destruct (allowed_hosts_written_once Deployment.W "__main__"
              Deployment.file__ Deployment.m_preset) as [Hlog Hval].
  split; [exact Hlog | exact (Hval H1 H2 H3)].
Defined.

Example preset_survives_the_run :
  allowed_hosts (ps (final (start_server Deployment.W "__main__"
                              Deployment.file__ Deployment.m_preset)))
  = Some "example.com".
Proof. vm_compute. reflexivity. Qed.

(** ** The steps happen, and in order *)





Lemma start_server_chdir_failed (W : world) (file__ : string) m :
  stdlib_ready (ps m) → is_dir W (script_dir (ps m) file__) = false →
  start_server W "__main__" file__ m
  = Raised (OSError (script_dir (ps m) file__))
      {| ps := configured (ps m);
         log := log (after_line_10 m) ++ [EvChdir (script_dir (ps m) file__)] |}.
Proof.
  intros Hstd Hdir. rewrite start_server_run by done.
  change (String.eqb "__main__" "__main__") with true. cbv iota.
  unfold mbind at 1, M_bind at 1.
  rewrite establish_working_directory_run. cbv zeta.
  change (ps (after_line_10 m)) with (configured (ps m)).
  by rewrite script_dir_configured, Hdir.
Qed.



(** ** The import of the target, when it is a normal one *)

Lemma pkg_ne_target : target_package ≠ target_module.
Proof. discriminate. Qed.

Lemma fresh_addr_free (s : proc) : heap s !! fresh_addr s = None.
Proof. apply not_elem_of_dom. unfold fresh_addr. apply is_fresh. Qed.







Section normal_import.
Context (W : world).
Hypothesis W_keeps : imports_keep_bookkeeping W.

(** Loading one of the two modules: the top level, when it returns,
    leaves the module where the import system has put it. *)
Lemma load_unlocked_keeps (name : string) (body : code) (s0 : proc) m :
  find_module W name s0 = Some body →
  name = target_package ∨ name = target_module →
  wp (load_unlocked name body)
    (λ a m',
       a = fresh_addr (ps m)
       ∧ log m' = log m ++ [EvLoad name]
       ∧ keeps_bookkeeping
           (set_sys_modules <[name := fresh_addr (ps m)]>
              (set_heap <[fresh_addr (ps m) := fresh_module name]> (ps m)))
           (ps m'))
    (λ m', log m' = log m ++ [EvLoad name]) m.
Proof.
  intros Hfind Hname. unfold load_unlocked. do 8 wp_step; [| done..].
  match goal with
  | H : body _ = FReturn _ |- _ => pose proof (W_keeps _ _ _ _ _ Hfind H) as Hk
  end.
  wp_step. wp_step.
  assert (sys_modules s' !! name = Some (fresh_addr (ps m))) as ->.
  { destruct Hk as (Hk1 & Hk2 & _).
    destruct Hname as [-> | ->]; [rewrite Hk1 | rewrite Hk2];
      cbn [set_sys_modules sys_modules]; apply lookup_insert_eq. }
  by wp_step.
Qed.

Lemma find_and_load_package m :
  not_yet_loaded (ps m) →
  wp (find_and_load W [(target_package, target_package)])
    (λ a m', package_loaded a (ps m')
             ∧ log m' = log m ++ [EvLoad target_package])
    (λ m', log m' = log m ∨ log m' = log m ++ [EvLoad target_package]) m.
Proof.
  intros [Hp Ht]. cbn [find_and_load]. wp_step. wp_step. rewrite Hp.
  wp_step. wp_step. wp_step. wp_step. rewrite Hp.
  wp_step. unfold require_parent. wp_step.
  wp_step; [| wp_step; by left]. wp_step.
  eapply wp_mono; [by eapply load_unlocked_keeps; [| left] | | ].
  - cbv beta. intros a m' (-> & Hlog & Hk1 & Hk2 & Hk3 & _).
    wp_step. unfold set_parent_attr. wp_step. wp_step.
    split; [| done]. cbn [set_sys_modules set_heap sys_modules heap] in *.
    rewrite lookup_insert_eq in Hk1, Hk3.
    rewrite lookup_insert_ne in Hk2 by apply pkg_ne_target.
    split; [done |]. split; [by rewrite Hk2 |].
    destruct (Hk3 _ _ eq_refl (lookup_insert_eq _ _ _)) as (o' & Ho' & _ & Hmain).
    by exists o'.
  - cbv beta. intros m' Hlog. by right.
Qed.

Lemma find_and_load_target m :
  not_yet_loaded (ps m) →
  wp (find_and_load W
        [(target_module, "main"); (target_package, target_package)])
    (λ a m', (∃ ap, target_bound ap a (ps m'))
             ∧ log m' = log m ++ [EvLoad target_package; EvLoad target_module])
    (λ m', log m' = log m
           ∨ log m' = log m ++ [EvLoad target_package]
           ∨ log m' = log m ++ [EvLoad target_package; EvLoad target_module])
    m.
Proof.
  intros Hfresh. pose proof Hfresh as [Hp Ht].
  change (find_and_load W
            [(target_module, "main"); (target_package, target_package)])
    with (s ← get_proc;
          match sys_modules s !! target_module with
          | Some a => mret a
          | None =>
              (find_and_load W [(target_package, target_package)];; mret tt);;
              s1 ← get_proc;
              match sys_modules s1 !! target_module with
              | Some a => mret a
              | None =>
                  require_parent [(target_package, target_package)];;
                  match find_module W target_module s1 with
                  | None => raise (ModuleNotFoundError target_module)
                  | Some body =>
                      a ← load_unlocked target_module body;
                      set_parent_attr [(target_package, target_package)]
                        "main" a;;
                      mret a
                  end
              end
          end).
  wp_step. wp_step. rewrite Ht. wp_step. wp_step.
  eapply wp_mono; [by apply find_and_load_package | | ].
  2: { cbv beta. intros m' [H | H]; [by left | by right; left]. }
  cbv beta. intros ap m1 [(Hp1 & Ht1 & o & Ho & Hmain) Hlog1].
  wp_step. wp_step. wp_step. rewrite Ht1.
  wp_step. unfold require_parent. wp_step. wp_step. rewrite Hp1. wp_step.
  wp_step; [| wp_step; by right; left]. wp_step.
  eapply wp_mono; [by eapply load_unlocked_keeps; [| right] | | ].
  2: { cbv beta. intros m' Hlog. right; right.
       by rewrite Hlog, Hlog1, <- app_assoc. }
  cbv beta. intros a m2 (-> & Hlog2 & Hk1 & Hk2 & Hk3 & Hk4).
  set (a := fresh_addr (ps m1)) in *.
  assert (a ≠ ap) as Hne.
  { intros Heq. pose proof (fresh_addr_free (ps m1)) as Hf.
    fold a in Hf. rewrite Heq in Hf. congruence. }
  cbn [set_sys_modules set_heap sys_modules heap] in *.
  rewrite lookup_insert_ne in Hk1 by (intros ?; by apply pkg_ne_target).
  rewrite lookup_insert_eq in Hk2.
  rewrite lookup_insert_ne in Hk3 by (intros ?; by apply pkg_ne_target).
  rewrite lookup_insert_eq in Hk4.
  destruct (Hk3 ap o Hp1) as (o' & Ho' & _ & Hmain');
    [by rewrite lookup_insert_ne |].
  destruct (Hk4 a _ eq_refl (lookup_insert_eq _ _ _)) as (ot & Hot & Hname).
  wp_step. unfold set_parent_attr. wp_step. wp_step.
  rewrite Hk1, Hp1. cbv iota. wp_step. wp_step.
  split; [| by rewrite Hlog2, Hlog1, <- app_assoc].
  exists ap. unfold target_bound.
  cbn [set_heap sys_modules heap].
  split; [by rewrite Hk1 |]. split; [done |]. split.
  - eexists. rewrite lookup_alter_eq, Ho'. split; [done |].
    cbn [mod_attrs]. apply lookup_insert_eq.
  - exists ot. by rewrite lookup_alter_ne.
Qed.

Lemma dotted_chain_target :
  dotted_chain target_module
  = [(target_package, target_package); (target_module, "main")].
Proof. reflexivity. Qed.

Lemma import_as_target_normal m :
  not_yet_loaded (ps m) →
  wp (import_as W target_module)
    (λ mo m',
       mod_name mo = Some (PStr target_module)
       ∧ (∃ ap a, target_bound ap a (ps m') ∧ heap (ps m') !! a = Some mo)
       ∧ log m' = log m ++ [EvImport target_module; EvLoad target_package;
                            EvLoad target_module])
    (λ m', log m' = log m ++ [EvImport target_module]
           ∨ log m' = log m ++ [EvImport target_module; EvLoad target_package]
           ∨ log m' = log m ++ [EvImport target_module; EvLoad target_package;
                                EvLoad target_module])
    m.
Proof.
  intros Hfresh. unfold import_as, import_name.
  rewrite dotted_chain_target.
  cbn [rev app fmap list_fmap snd tail import_from_chain].
  wp_step. wp_step. wp_step. wp_step.
  eapply wp_mono; [by apply find_and_load_target | | ].
  2: { cbv beta. cbn [log]. intros m' [H | [H | H]]; rewrite H, <- ?app_assoc;
       [by left | by right; left | by right; right]. }
  cbv beta. cbn [log]. intros a m1 [[ap Hb] Hlog].
  pose proof Hb as (Hp & Ht & (op & Hop & Hmain) & (ot & Hot & Hname)).
  cbn [find_and_load]. wp_step. wp_step. rewrite Hp. wp_step.
  wp_step. unfold import_from. wp_step. wp_step. wp_step.
  assert (object_at (ps m1) ap = op) as -> by (unfold object_at; by rewrite Hop).
  rewrite Hmain. cbv iota. wp_step. wp_step. wp_step. wp_step. wp_step.
  assert (object_at (ps m1) a = ot) as -> by (unfold object_at; by rewrite Hot).
  split; [done |]. split; [by exists ap, a |].
  by rewrite Hlog, <- app_assoc.
Qed.



End normal_import.

Lemma not_yet_loaded_configured (s : proc) :
  not_yet_loaded s → not_yet_loaded (configured s).
Proof.
  unfold configured. by destruct (environ s !! STARLETTE_ALLOWED_HOSTS).
Qed.



Lemma deployment_keeps_bookkeeping : imports_keep_bookkeeping Deployment.W.
Proof.
  intros n s body s0 s1 Hfind Hbody. cbn in Hfind.
  destruct (String.eqb n target_package || String.eqb n target_module);
    [| discriminate Hfind].
  injection Hfind as <-. injection Hbody as <-.
  unfold keeps_bookkeeping. repeat split; eauto.
Qed.

Lemma boot_not_yet_loaded (env : gmap string string) (args : list string) :
  not_yet_loaded (ps (Deployment.boot env args)).
Proof. split; vm_compute; reflexivity. Qed.



Example run_loads_target_once :
  List.filter (is_load_of target_module)
    (log (final (start_server Deployment.W "__main__" Deployment.file__
                   Deployment.m_unset)))
  = [EvLoad target_module].
Proof. vm_compute. reflexivity. Qed.

(** A target that rebinds its own [__name__] reaches the re-run as well. *)
Example renaming_reruns :
  List.filter is_rerun
    (log (final (start_server Deployment.W_renaming "__main__"
                   Deployment.file__ Deployment.m_unset)))
  = [EvOpen target_file;
     EvExec "app = build(); serve(app) if __name__ == '__main__' else None"].
Proof. vm_compute. reflexivity. Qed.


(** ** The command line *)

Ltac agreed :=
  unfold outcomes_agree, machines_agree, same_but_argv in *;
  repeat match goal with H : _ ∧ _ |- _ => destruct H end;
  repeat split; cbn in *; congruence.

Lemma machines_agree_emit (m1 m2 : machine) (e : event) :
  machines_agree m1 m2 →
  machines_agree {| ps := ps m1; log := log m1 ++ [e] |}
    {| ps := ps m2; log := log m2 ++ [e] |}.
Proof. intros [Hps Hlog]. split; [done |]. cbn. by rewrite Hlog. Qed.

Lemma outcomes_agree_final {A} (o1 o2 : outcome A) :
  outcomes_agree o1 o2 → machines_agree (final o1) (final o2).
Proof. destruct o1, o2; try done; cbn; by intros []. Qed.

Lemma run_alike_bind {A B} (c1 c2 : M A) (k1 k2 : A → M B) :
  run_alike c1 c2 → (∀ a, run_alike (k1 a) (k2 a)) →
  run_alike (c1 ≫= k1) (c2 ≫= k2).
Proof.
  intros Hc Hk m1 m2 Hm. specialize (Hc m1 m2 Hm).
  unfold mbind, M_bind. destruct (c1 m1), (c2 m2); try done.
  destruct Hc as [<- Hm']. by apply Hk.
Qed.

Lemma run_alike_get {B} (k1 k2 : proc → M B) :
  (∀ s1 s2, same_but_argv s1 s2 → run_alike (k1 s1) (k2 s2)) →
  run_alike (get_proc ≫= k1) (get_proc ≫= k2).
Proof. intros Hk m1 m2 Hm. by apply (Hk _ _ (proj1 Hm)). Qed.

Lemma run_alike_ret {A} (a : A) : run_alike (mret a) (mret a).
Proof. intros m1 m2 Hm. by split. Qed.

Lemma run_alike_raise {A} (e : exn) : run_alike (@raise A e) (raise e).
Proof. intros m1 m2 Hm. by split. Qed.

Lemma run_alike_emit (e : event) : run_alike (emit e) (emit e).
Proof. intros m1 m2 Hm. split; [done |]. by apply machines_agree_emit. Qed.

Lemma run_alike_put (s1 s2 : proc) :
  same_but_argv s1 s2 → run_alike (put_proc s1) (put_proc s2).
Proof. intros Hs m1 m2 [_ Hl]. by split. Qed.

Lemma run_alike_module_body (name : string) (c1 c2 : code) :
  codes_agree c1 c2 →
  run_alike (run_module_body name c1) (run_module_body name c2).
Proof.
  intros Hc m1 m2 [Hps Hl]. unfold run_module_body.
  specialize (Hc (ps m1) (ps m2) Hps).
  destruct (c1 (ps m1)), (c2 (ps m2)); try done; agreed.
Qed.

Lemma run_alike_foreign (c1 c2 : code) :
  codes_agree c1 c2 → run_alike (run_foreign c1) (run_foreign c2).
Proof.
  intros Hc m1 m2 [Hps Hl]. unfold run_foreign.
  specialize (Hc (ps m1) (ps m2) Hps).
  destruct (c1 (ps m1)), (c2 (ps m2)); try done; agreed.
Qed.

Lemma run_alike_load_unlocked (name : string) (c1 c2 : code) :
  codes_agree c1 c2 →
  run_alike (load_unlocked name c1) (load_unlocked name c2).
Proof.
  intros Hc. unfold load_unlocked.
  apply run_alike_get. intros s1 s2 Hs.
  apply run_alike_bind.
  { apply run_alike_put. unfold fresh_addr. agreed. }
  intros _. apply run_alike_bind; [apply run_alike_emit | intros _].
  apply run_alike_bind; [by apply run_alike_module_body | intros _].
  apply run_alike_get. intros s1' s2' (_ & _ & -> & _).
  destruct (sys_modules s2' !! name);
    [apply run_alike_ret | apply run_alike_raise].
Qed.

Lemma run_alike_set_parent_attr (parents : list (string * string))
    (child : string) (a : addr) :
  run_alike (set_parent_attr parents child a)
    (set_parent_attr parents child a).
Proof.
  unfold set_parent_attr. destruct parents as [|[p ?] ?];
    [apply run_alike_ret |].
  apply run_alike_get. intros s1 s2 Hs.
  pose proof Hs as (_ & _ & -> & _).
  destruct (sys_modules s2 !! p); [| apply run_alike_raise].
  apply run_alike_put. agreed.
Qed.

Lemma run_alike_require_parent (parents : list (string * string)) :
  run_alike (require_parent parents) (require_parent parents).
Proof.
  unfold require_parent. destruct parents as [|[p ?] ?];
    [apply run_alike_ret |].
  apply run_alike_get. intros s1 s2 (_ & _ & -> & _).
  destruct (sys_modules s2 !! p); [apply run_alike_ret | apply run_alike_raise].
Qed.

Lemma run_alike_import_from (v : addr) (attr : string) :
  run_alike (import_from v attr) (import_from v attr).
Proof.
  unfold import_from. apply run_alike_get.
  intros s1 s2 (_ & _ & Hsm & Hh). unfold object_at. rewrite Hsm, Hh.
  destruct (mod_attrs _ !! attr); [apply run_alike_ret |].
  destruct (mod_name _) as [[n|]|]; try apply run_alike_raise.
  destruct (sys_modules s2 !! _); [apply run_alike_ret | apply run_alike_raise].
Qed.

Lemma run_alike_import_from_chain (attrs : list string) (v : addr) :
  run_alike (import_from_chain v attrs) (import_from_chain v attrs).
Proof.
  revert v. induction attrs as [|attr attrs IH]; intros v;
    cbn [import_from_chain]; [apply run_alike_ret |].
  apply run_alike_bind; [apply run_alike_import_from | done].
Qed.

Lemma run_alike_setdefault (key value : string) :
  run_alike (os_environ_setdefault key value)
    (os_environ_setdefault key value).
Proof.
  unfold os_environ_setdefault. apply run_alike_get. intros s1 s2 Hs.
  pose proof Hs as (-> & _).
  destruct (environ s2 !! key).
  - apply run_alike_bind; [apply run_alike_emit | intros _].
    apply run_alike_ret.
  - apply run_alike_bind; [apply run_alike_emit | intros _].
    apply run_alike_bind; [| intros _; apply run_alike_ret].
    apply run_alike_put. agreed.
Qed.

Lemma run_alike_establish (W : world) (file__ : string) :
  run_alike (establish_working_directory W file__)
    (establish_working_directory W file__).
Proof.
  intros m1 m2 [(He & Hc & Hs) Hl].
  rewrite !establish_working_directory_run. unfold script_dir. cbv zeta.
  rewrite Hc. destruct (is_dir W _); agreed.
Qed.

Lemma run_alike_open_read (W : world) (path : string) :
  run_alike (open_read W path) (open_read W path).
Proof.
  unfold open_read. apply run_alike_bind; [apply run_alike_emit | intros _].
  apply run_alike_get. intros s1 s2 (_ & -> & _).
  destruct (read_text W _); [apply run_alike_ret | apply run_alike_raise].
Qed.

Section world_ignores_argv.
Context (W : world).
Hypothesis W_ignores : world_ignores_argv W.

Lemma run_alike_find_and_load (chain : list (string * string)) :
  run_alike (find_and_load W chain) (find_and_load W chain).
Proof.
  induction chain as [|[name child] parents IH]; cbn [find_and_load];
    [apply run_alike_raise |].
  apply run_alike_get. intros s1 s2 (_ & _ & -> & _).
  destruct (sys_modules s2 !! name); [apply run_alike_ret |].
  apply run_alike_bind.
  { destruct parents; [apply run_alike_ret |].
    apply run_alike_bind; [done | intros _; apply run_alike_ret]. }
  intros _. apply run_alike_get. intros s1' s2' Hs'.
  pose proof Hs' as (_ & _ & -> & _).
  destruct (sys_modules s2' !! name); [apply run_alike_ret |].
  apply run_alike_bind; [apply run_alike_require_parent | intros _].
  pose proof (proj1 W_ignores name s1' s2' Hs') as Hfind.
  destruct (find_module W name s1') as [c1|],
    (find_module W name s2') as [c2|]; try done;
    try apply run_alike_raise.
  apply run_alike_bind; [by apply run_alike_load_unlocked | intros a].
  apply run_alike_bind;
    [apply run_alike_set_parent_attr | intros _; apply run_alike_ret].
Qed.

Lemma run_alike_import_name (n : string) :
  run_alike (import_name W n) (import_name W n).
Proof.
  unfold import_name.
  apply run_alike_bind; [apply run_alike_find_and_load | intros a].
  destruct (dotted_chain n) as [|top [|? ?]];
    solve [apply run_alike_ret | apply run_alike_find_and_load].
Qed.

Lemma ignores_argv_import_as (n : string) : ignores_argv (import_as W n).
Proof.
  change (run_alike (import_as W n) (import_as W n)). unfold import_as.
  apply run_alike_bind; [apply run_alike_emit | intros _].
  apply run_alike_bind; [apply run_alike_import_name | intros top].
  apply run_alike_bind; [apply run_alike_import_from_chain | intros a].
  apply run_alike_get. intros s1 s2 (_ & _ & _ & Hh).
  unfold object_at. rewrite Hh. apply run_alike_ret.
Qed.

Lemma ignores_argv_exec (source : string) : ignores_argv (exec W source).
Proof.
  change (run_alike (exec W source) (exec W source)). unfold exec.
  apply run_alike_bind; [apply run_alike_emit | intros _].
  apply run_alike_foreign, W_ignores.
Qed.

Lemma ignores_argv_launch_application :
  ignores_argv (launch_application W).
Proof.
  change (run_alike (launch_application W) (launch_application W)).
  unfold launch_application.
  apply run_alike_bind; [apply ignores_argv_import_as | intros mo].
  destruct (hasattr_name mo && name_is mo "__main__");
    [| apply run_alike_ret].
  apply run_alike_bind; [apply run_alike_open_read | apply ignores_argv_exec].
Qed.

Lemma ignores_argv_start_server (name__ file__ : string) :
  ignores_argv (start_server W name__ file__).
Proof.
  change (run_alike (start_server W name__ file__)
            (start_server W name__ file__)).
  unfold start_server.
  apply run_alike_bind; [apply ignores_argv_import_as | intros _].
  apply run_alike_bind; [apply ignores_argv_import_as | intros _].
  apply run_alike_bind; [apply run_alike_setdefault | intros _].
  destruct (String.eqb name__ "__main__"); [| apply run_alike_ret].
  apply run_alike_bind; [apply run_alike_establish | intros _].
  apply ignores_argv_launch_application.
Qed.
End world_ignores_argv.

Lemma stdlib_ready_agree (s1 s2 : proc) :
  same_but_argv s1 s2 → stdlib_ready s1 → stdlib_ready s2.
Proof. intros (_ & _ & Hs & _). unfold stdlib_ready. by rewrite Hs. Qed.

Lemma script_dir_agree (s1 s2 : proc) (file__ : string) :
  same_but_argv s1 s2 → script_dir s1 file__ = script_dir s2 file__.
Proof. intros (_ & Hc & _). unfold script_dir. by rewrite Hc. Qed.

Lemma after_line_10_agree (m1 m2 : machine) :
  machines_agree m1 m2 → machines_agree (after_line_10 m1) (after_line_10 m2).
Proof.
  intros [(He & Hc & Hs & Hh) Hl]. unfold after_line_10, configured.
  rewrite He, Hl.
  destruct (environ (ps m2) !! STARLETTE_ALLOWED_HOSTS); agreed.
Qed.

Lemma after_line_16_agree (file__ : string) (m1 m2 : machine) :
  machines_agree m1 m2 →
  machines_agree (after_line_16 file__ m1) (after_line_16 file__ m2).
Proof.
  intros Hm. pose proof (after_line_10_agree m1 m2 Hm) as H10.
  pose proof (script_dir_agree _ _ file__ (proj1 Hm)) as Hd.
  unfold after_line_16. rewrite Hd.
  destruct H10 as [(He & Hc & Hs & Hh) Hl]. rewrite Hl.
  repeat split; done.
Qed.

Lemma outcomes_agree_logs {A} (o1 o2 : outcome A) :
  outcomes_agree o1 o2 → log (final o1) = log (final o2).
Proof. intros H. by apply outcomes_agree_final in H as [_ ?]. Qed.

(** C10. Let two runs of the launcher start from processes that differ at
    most in the command line. If the code of the deployment (the imported
    modules, the executed text) does not act on the command line, the two
    runs end the same way (both return, both raise the same exception, or
    both do not return), with the same events in the same order, so the
    same write of the environment, the same change of directory, the same
    import and the same decision on the re-run, and in processes that again
    differ at most in the command line. Whatever that code does, in an
    interpreter with [os] and [sys] loaded the launcher's own steps are the
    same in the two runs: the same default and the same directory, so that
    line 19 is reached (or not) in both, from processes that differ at most
    in the command line; when it is not reached the two runs end alike;
    and when the import returns in both runs, with modules that go by the
    same [__name__], either both runs return there or both go on to the
    re-run. *)
Theorem start_server_ignores_argv (W : world) (name__ file__ : string)
    (m1 m2 : machine) :
  machines_agree m1 m2 →
  (world_ignores_argv W →
   outcomes_agree (start_server W name__ file__ m1)
     (start_server W name__ file__ m2)
   ∧ log (final (start_server W name__ file__ m1))
     = log (final (start_server W name__ file__ m2)))
  ∧ (stdlib_ready (ps m1) →
     machines_agree (after_line_16 file__ m1) (after_line_16 file__ m2)
     ∧ (name__ ≠ "__main__" ∨ is_dir W (script_dir (ps m1) file__) = false →
        outcomes_agree (start_server W name__ file__ m1)
          (start_server W name__ file__ m2)
        ∧ log (final (start_server W name__ file__ m1))
          = log (final (start_server W name__ file__ m2)))
     ∧ (name__ = "__main__" → is_dir W (script_dir (ps m1) file__) = true →
        start_server W name__ file__ m1
        = launch_application W (after_line_16 file__ m1)
        ∧ start_server W name__ file__ m2
          = launch_application W (after_line_16 file__ m2)
        ∧ ∀ mo1 m1' mo2 m2',
            import_as W target_module (after_line_16 file__ m1)
            = Done mo1 m1' →
            import_as W target_module (after_line_16 file__ m2)
            = Done mo2 m2' →
            mod_name mo1 = mod_name mo2 →
            (start_server W name__ file__ m1 = Done tt m1'
             ∧ start_server W name__ file__ m2 = Done tt m2')
            ∨ (start_server W name__ file__ m1
               = (source ← open_read W target_file; exec W source) m1'
               ∧ start_server W name__ file__ m2
                 = (source ← open_read W target_file; exec W source) m2'))).
Proof.
  intros Hm. split.
  { intros HW.
    pose proof (ignores_argv_start_server W HW name__ file__ m1 m2 Hm) as H.
    split; [done | by apply outcomes_agree_logs]. }
  intros Hstd1.
  pose proof (stdlib_ready_agree _ _ (proj1 Hm) Hstd1) as Hstd2.
  pose proof (script_dir_agree _ _ file__ (proj1 Hm)) as Hd.
  pose proof (after_line_10_agree m1 m2 Hm) as H10.
  pose proof (after_line_16_agree file__ m1 m2 Hm) as H16.
  split; [done |]. split.
  - intros Hcase.
    assert (outcomes_agree (start_server W name__ file__ m1)
              (start_server W name__ file__ m2)) as H;
      [| split; [done | by apply outcomes_agree_logs]].
    destruct (String.eqb_spec name__ "__main__") as [-> | Hne].
    + destruct Hcase as [? | Hdir]; [done |].
      rewrite !start_server_chdir_failed by (by rewrite <- ?Hd).
      rewrite <- Hd. split; [done |].
      destruct H10 as [Hps Hl]. split; [done |]. cbn [log]. by rewrite Hl.
    + rewrite !start_server_run by done.
      apply String.eqb_neq in Hne. rewrite Hne. by split.
  - intros -> Hdir.
    rewrite !start_server_main by (by rewrite <- ?Hd).
    split; [done |]. split; [done |].
    intros mo1 m1' mo2 m2' Himp1 Himp2 Hname.
    rewrite (launch_application_after_import W mo1 _ m1' Himp1).
    rewrite (launch_application_after_import W mo2 _ m2' Himp2).
    rewrite <- Hname. case_bool_decide; [by right | by left].
Qed.

Lemma deployment_ignores_argv : world_ignores_argv Deployment.W.
Proof.
  split.
  - intros n s1 s2 Hs. cbn.
    destruct (String.eqb n target_package || String.eqb n target_module);
      [| done].
    by intros s1' s2' Hs'.
  - by intros src s1 s2 Hs.
Qed.

Lemma start_server_ignores_argv_witness :
  (machines_agree Deployment.m_unset Deployment.m_args
   ∧ world_ignores_argv Deployment.W
   ∧ stdlib_ready (ps Deployment.m_unset))
  ∧ outcomes_agree
      (start_server Deployment.W "__main__" Deployment.file__
         Deployment.m_unset)
      (start_server Deployment.W "__main__" Deployment.file__
         Deployment.m_args)
  ∧ log (final (start_server Deployment.W "__main__" Deployment.file__
                  Deployment.m_unset))
    = log (final (start_server Deployment.W "__main__" Deployment.file__
                    Deployment.m_args))
  ∧ machines_agree (after_line_16 Deployment.file__ Deployment.m_unset)
      (after_line_16 Deployment.file__ Deployment.m_args)
  ∧ start_server Deployment.W "__main__" Deployment.file__ Deployment.m_args
    = launch_application Deployment.W
        (after_line_16 Deployment.file__ Deployment.m_args).
Proof.
  assert (machines_agree Deployment.m_unset Deployment.m_args) as H1
    by (repeat split).
  pose proof deployment_ignores_argv as H2.
  pose proof (stdlib_ready_boot ∅ ["start_server.py"]) as H3.
  split; [exact (conj H1 (conj H2 H3)) |].
  destruct (start_server_ignores_argv Deployment.W "__main__"
              Deployment.file__ Deployment.m_unset Deployment.m_args H1)
    as [Hall Hown].
  destruct (Hall H2) as [Ho Hl].
  destruct (Hown H3) as (H16 & _ & Hmain).
  assert (is_dir Deployment.W
            (script_dir (ps Deployment.m_unset) Deployment.file__) = true)
    as Hdir by (vm_compute; reflexivity).
  destruct (Hmain eq_refl Hdir) as (_ & Hrun & _).
  exact (conj Ho (conj Hl (conj H16 Hrun))).
Defined.

(** C10 as worded does not hold: the launcher hands over to code that may
    read the command line. In [Deployment.W_argv] the top level of
    [main.py] rebinds its [__name__] when it finds [--serve] among the
    arguments. Two invocations that differ in nothing but that argument
    then differ in the decision on the re-run: without the argument the
    launcher returns after the import, with it the launcher opens
    [shopping_cart_python/main.py] and hands its text to [exec]. *)
Lemma start_server_ignores_argv_counterexample :
  machines_agree Deployment.m_unset Deployment.m_serve
  ∧ List.filter is_rerun
      (log (final (start_server Deployment.W_argv "__main__"
                     Deployment.file__ Deployment.m_unset)))
    = []
  ∧ List.filter is_rerun
      (log (final (start_server Deployment.W_argv "__main__"
                     Deployment.file__ Deployment.m_serve)))
    = [EvOpen target_file;
       EvExec "app = build(); serve(app) if __name__ == '__main__' else None"]
  ∧ ¬ outcomes_agree
        (start_server Deployment.W_argv "__main__" Deployment.file__
           Deployment.m_unset)
        (start_server Deployment.W_argv "__main__" Deployment.file__
           Deployment.m_serve).
Proof.
  split; [by repeat split |].
  split; [vm_compute; reflexivity |].
  split; [vm_compute; reflexivity |].
  intros H. vm_compute in H. exact H.
Qed.


(** ** The order of steps is a real constraint *)

Example order_accepts_a_full_run :
  in_launch_order
    [EvImport "os"; EvImport "sys"; EvSetdefault STARLETTE_ALLOWED_HOSTS "*" true;
     EvChdir "/srv/app"; EvImport target_module; EvLoad target_package;
     EvLoad target_module; EvOpen target_file; EvExec "pass"]
  = true.
Proof. reflexivity. Qed.

Example order_rejects_chdir_before_default :
  in_launch_order
    [EvImport "os"; EvImport "sys"; EvChdir "/srv/app";
     EvSetdefault STARLETTE_ALLOWED_HOSTS "*" true]
  = false.
Proof. reflexivity. Qed.

Example order_rejects_rerun_before_import :
  in_launch_order
    [EvImport "os"; EvImport "sys"; EvSetdefault STARLETTE_ALLOWED_HOSTS "*" true;
     EvChdir "/srv/app"; EvOpen target_file]
  = false.
Proof. reflexivity. Qed.

Example order_rejects_a_second_default :
  in_launch_order
    [EvImport "os"; EvSetdefault STARLETTE_ALLOWED_HOSTS "*" true;
     EvSetdefault STARLETTE_ALLOWED_HOSTS "*" true]
  = false.
Proof. reflexivity. Qed.

(** ** Further properties of the launcher *)

(** *** Line 10 twice *)

Lemma configured_idempotent (s : proc) : configured (configured s) = configured s.
Proof.
  pose proof (allowed_hosts_configured s) as Hc. unfold allowed_hosts in Hc.
  set (c := configured s) in *. unfold configured. by rewrite Hc.
Qed.

(** Applying the default a second time changes nothing: the second call
    returns the value the first returned, writes nothing, and leaves the
    process as the first call left it. *)
Theorem configure_environment_idempotent (m : machine) :
  ∃ v m1 m2,
    configure_environment m = Done v m1
    ∧ configure_environment m1 = Done v m2
    ∧ ps m2 = ps m1
    ∧ log m2 = log m1 ++ [EvSetdefault STARLETTE_ALLOWED_HOSTS "*" false].
Proof.
  pose proof (allowed_hosts_configured (ps m)) as Hc. unfold allowed_hosts in Hc.
  assert (allowed_hosts_after (configured (ps m)) = allowed_hosts_after (ps m))
    as Ha by (unfold allowed_hosts_after at 1; by rewrite Hc).
  exists (allowed_hosts_after (ps m)). eexists _, _.
  rewrite configure_environment_run. split; [done |].
  rewrite configure_environment_run. cbn [ps log].
  rewrite Ha, configured_idempotent. split; [done |]. cbn [ps log].
  split; [done |]. by rewrite Hc.
Qed.

(** *** A directory that cannot be entered *)

(** When [os.chdir] fails, the launcher ends with its [OSError]: the
    default of line 10 stays applied, the working directory is the
    caller's, and the target is neither imported nor run. *)
Theorem chdir_failure_stops_launcher (W : world) (file__ : string)
    (m : machine) :
  stdlib_ready (ps m) → is_dir W (script_dir (ps m) file__) = false →
  ∃ m', start_server W "__main__" file__ m
        = Raised (OSError (script_dir (ps m) file__)) m'
        ∧ allowed_hosts (ps m') = Some (allowed_hosts_after (ps m))
        ∧ cwd (ps m') = cwd (ps m)
        ∧ sys_modules (ps m') = sys_modules (ps m)
        ∧ ∃ wrote, log m' = log m ++
            [EvImport "os"; EvImport "sys";
             EvSetdefault STARLETTE_ALLOWED_HOSTS "*" wrote;
             EvChdir (script_dir (ps m) file__)].
Proof.
  intros Hstd Hdir. rewrite start_server_run by done.
  change (String.eqb "__main__" "__main__") with true. cbv iota.
  unfold mbind at 1, M_bind at 1.
  rewrite establish_working_directory_run. cbv zeta.
  change (ps (after_line_10 m)) with (configured (ps m)).
  rewrite script_dir_configured, Hdir.
  eexists. split; [done |]. cbn [ps log after_line_10].
  split; [apply allowed_hosts_configured |].
  unfold configured.
  destruct (environ (ps m) !! STARLETTE_ALLOWED_HOSTS);
    (split; [done |]); (split; [done |]); eexists;
    by rewrite <- app_assoc.
Qed.

Lemma chdir_failure_stops_launcher_witness :
  (stdlib_ready (ps Deployment.m_unset)
   ∧ is_dir locked_deployment
       (script_dir (ps Deployment.m_unset) Deployment.file__) = false)
  ∧ ∃ m', start_server locked_deployment "__main__" Deployment.file__
            Deployment.m_unset
          = Raised (OSError (script_dir (ps Deployment.m_unset)
                               Deployment.file__)) m'
        ∧ allowed_hosts (ps m')
          = Some (allowed_hosts_after (ps Deployment.m_unset))
        ∧ cwd (ps m') = cwd (ps Deployment.m_unset)
        ∧ sys_modules (ps m') = sys_modules (ps Deployment.m_unset)
        ∧ ∃ wrote, log m' = log Deployment.m_unset ++
            [EvImport "os"; EvImport "sys";
             EvSetdefault STARLETTE_ALLOWED_HOSTS "*" wrote;
             EvChdir (script_dir (ps Deployment.m_unset) Deployment.file__)].
Proof.
  assert (is_dir locked_deployment
            (script_dir (ps Deployment.m_unset) Deployment.file__) = false)
    as H2 by reflexivity.
  split; [split; [apply stdlib_ready_boot | exact H2] |].
  exact (chdir_failure_stops_launcher locked_deployment Deployment.file__
           Deployment.m_unset (stdlib_ready_boot _ _) H2).
Defined.

Example locked_run :
  start_server locked_deployment "__main__" Deployment.file__
    Deployment.m_unset
  = Raised (OSError "/srv/app")
      {| ps := {| environ := {[ STARLETTE_ALLOWED_HOSTS := "*" ]};
                  cwd := "/home/u"; argv := ["start_server.py"];
                  sys_modules := Deployment.std_modules;
                  heap := Deployment.std_heap |};
         log := [EvImport "os"; EvImport "sys";
                 EvSetdefault STARLETTE_ALLOWED_HOSTS "*" true;
                 EvChdir "/srv/app"] |}.
Proof. vm_compute. reflexivity. Qed.

(** *** The directory the launcher goes to is an absolute path *)

Section absolute_paths.
Import posixpath.
Local Arguments String.append !_ _ : simpl nomatch.

Lemma isabs_append (a b : string) : isabs a = true → isabs (a +:+ b) = true.
Proof. by destruct a. Qed.

Lemma join_isabs (a b : string) : isabs a = true → isabs (join a b) = true.
Proof.
  intros Ha. unfold join. destruct (isabs b) eqn:Hb; [done |].
  destruct (String.eqb a "" || endswith_sep a); by apply isabs_append.
Qed.

Lemma normpath_isabs (p : string) : isabs p = true → isabs (normpath p) = true.
Proof.
  destruct p as [|c r]; [done |]. cbn [isabs]. intros Hc.
  unfold normpath. cbn [String.eqb].
  assert (∃ n, initial_slashes (String c r) = S n) as [n ->].
  { cbn [initial_slashes]. rewrite Hc.
    destruct r as [|c2 [|c3 r]]; [by eexists | ..];
      destruct (is_sep c2); try destruct (is_sep c3); by eexists. }
  done.
Qed.

Lemma rstrip_sep_empty (s : string) : rstrip_sep s = "" → all_sep s = true.
Proof.
  induction s as [|c s IH]; [done |]. cbn [rstrip_sep all_sep].
  destruct (rstrip_sep s); [| done].
  destruct (is_sep c); [| done]. intros _. by apply IH.
Qed.

Lemma dirname_isabs (p : string) : isabs p = true → isabs (dirname p) = true.
Proof.
  destruct p as [|c r]; [done |]. cbn [isabs]. intros Hc.
  unfold dirname. cbn [rfind_sep]. rewrite Hc.
  assert (∃ i, from_option S 0
                 match rfind_sep r with
                 | Some i => Some (S i)
                 | None => Some 0
                 end = S i) as [i ->]
    by (destruct (rfind_sep r); by eexists).
  cbn [take String.eqb negb andb].
  destruct (all_sep (String c (take i r))) eqn:Hall; [done |].
  cbn [negb]. cbn [rstrip_sep].
  destruct (rstrip_sep (take i r)) eqn:Hr; [| done].
  apply rstrip_sep_empty in Hr. cbn [all_sep] in Hall.
  by rewrite Hc, Hr in Hall.
Qed.
End absolute_paths.

(** Whatever [__file__] is, as long as the caller's working directory is
    an absolute path (as [os.getcwd()] gives it) or [__file__] is one, the
    path lines 15 and 16 hand to [os.chdir] is absolute, so never empty and
    never relative to where the caller was. *)
Theorem establish_working_directory_goes_absolute (W : world)
    (file__ : string) (m : machine) :
  posixpath.isabs (cwd (ps m)) = true ∨ posixpath.isabs file__ = true →
  ∃ d, log (final (establish_working_directory W file__ m))
       = log m ++ [EvChdir d]
       ∧ posixpath.isabs d = true.
Proof.
  intros Habs. exists (script_dir (ps m) file__).
  rewrite establish_working_directory_run. cbv zeta. split.
  - by destruct (is_dir W _).
  - unfold script_dir, posixpath.abspath.
    apply dirname_isabs, normpath_isabs.
    destruct (posixpath.isabs file__) eqn:Hf; [done |].
    destruct Habs as [Hc|?]; [by apply join_isabs | done].
Qed.

Lemma establish_working_directory_goes_absolute_witness :
  (posixpath.isabs (cwd (ps Deployment.m_unset)) = true
   ∨ posixpath.isabs "bin/../start_server.py" = true)
  ∧ ∃ d, log (final (establish_working_directory Deployment.W
                       "bin/../start_server.py" Deployment.m_unset))
         = log Deployment.m_unset ++ [EvChdir d]
         ∧ posixpath.isabs d = true.
Proof.
  assert (posixpath.isabs (cwd (ps Deployment.m_unset)) = true
          ∨ posixpath.isabs "bin/../start_server.py" = true) as H
    by (left; reflexivity).
  split; [exact H |].
  exact (establish_working_directory_goes_absolute Deployment.W
           "bin/../start_server.py" Deployment.m_unset H).
Defined.

Example script_dir_of_relative_file :
  script_dir (ps Deployment.m_unset) "bin/../start_server.py" = "/home/u".
Proof. reflexivity. Qed.

(** *** The file that is run again is the launcher's neighbour *)

Section sibling.
Import posixpath.
Local Arguments String.append !_ _ : simpl nomatch.

Lemma join_target_file (dir : list string) :
  Forall (λ c, proper_comp c = true) dir →
  join (render_abs dir) target_file = sibling_target dir.
Proof.
  intros Hdir. unfold sibling_target, render_abs.
  destruct dir as [|c cs]; [done |].
  destruct (sep_join_proper (c :: cs)) as (_ & He & Hne); [done | done |].
  unfold join. change (isabs target_file) with false. cbv iota.
  change (String.eqb ("/" +:+ sep_join (c :: cs)) "") with false.
  rewrite endswith_sep_app by done. rewrite He. cbn [orb].
  replace ((c :: cs) ++ ["shopping_cart_python"; "main.py"])
    with (((c :: cs) ++ ["shopping_cart_python"]) ++ ["main.py"])
    by (by rewrite <- app_assoc).
  rewrite sep_join_snoc by (by destruct cs).
  rewrite sep_join_snoc by done.
  by rewrite !append_assoc.
Qed.
End sibling.

(** Let the launcher file be [name] in the directory of components [dir],
    and let the code run by the import leave the working directory alone.
    When the import returns a module called ["__main__"], the file the
    launcher opens is [shopping_cart_python/main.py] in the launcher's own
    directory, wherever the caller started from; its text is what [exec]
    gets. *)
Theorem rerun_opens_sibling_file (W : world) (file__ : string)
    (dir : list string) (name : string) (mo : module_obj) (m m1 : machine) :
  stdlib_ready (ps m) →
  Forall (λ c, posixpath.proper_comp c = true) dir →
  posixpath.slash_free name = true →
  posixpath.abspath (cwd (ps m)) file__ = posixpath.render_abs (dir ++ [name]) →
  is_dir W (posixpath.render_abs dir) = true →
  imports_preserve cwd W →
  import_as W target_module (after_line_16 file__ m) = Done mo m1 →
  mod_name mo = Some (PStr "__main__") →
  start_server W "__main__" file__ m
  = match read_text W (sibling_target dir) with
    | Some source =>
        run_foreign (exec_source W source)
          {| ps := ps m1;
             log := log m1 ++ [EvOpen target_file; EvExec source] |}
    | None =>
        Raised (OSError target_file)
          {| ps := ps m1; log := log m1 ++ [EvOpen target_file] |}
    end.
Proof.
  intros Hstd Hdir Hname Habs Hd Hcwd Himp Hmain.
  assert (script_dir (ps m) file__ = posixpath.render_abs dir) as Hsd
    by (unfold script_dir; by rewrite Habs, dirname_render_abs).
  rewrite start_server_main by (by rewrite ?Hsd).
  rewrite (launch_application_after_import W mo _ m1) by done.
  rewrite bool_decide_eq_true_2 by done. rewrite rerun_run.
  assert (cwd (ps m1) = posixpath.render_abs dir) as ->.
  { pose proof (import_as_preserves cwd W (λ _ _, eq_refl)
                  (λ _ _, eq_refl) Hcwd
                  target_module (posixpath.render_abs dir)
                  (after_line_16 file__ m)) as Hwp.
    unfold wp in Hwp. rewrite Himp in Hwp. apply Hwp.
    cbn [after_line_16 ps set_cwd cwd]. done. }
  by rewrite join_target_file.
Qed.

Lemma renaming_preserves_cwd : imports_preserve cwd Deployment.W_renaming.
Proof.
  intros n s body Hfind s0. cbn in Hfind.
  destruct (String.eqb n target_package); [by injection Hfind as <- |].
  destruct (String.eqb n target_module); [| discriminate Hfind].
  injection Hfind as <-. unfold rename_module.
  by destruct (sys_modules s0 !! target_module).
Qed.

Lemma rerun_opens_sibling_file_witness :
  (stdlib_ready (ps Deployment.m_unset)
   ∧ Forall (λ c, posixpath.proper_comp c = true) ["srv"; "app"]
   ∧ posixpath.slash_free "start_server.py" = true
   ∧ posixpath.abspath (cwd (ps Deployment.m_unset)) Deployment.file__
     = posixpath.render_abs (["srv"; "app"] ++ ["start_server.py"])
   ∧ is_dir Deployment.W_renaming (posixpath.render_abs ["srv"; "app"]) = true
   ∧ imports_preserve cwd Deployment.W_renaming
   ∧ Deployment.import_renaming
     = Done Deployment.entry_point_module (final Deployment.import_renaming)
   ∧ mod_name Deployment.entry_point_module = Some (PStr "__main__"))
  ∧ start_server Deployment.W_renaming "__main__" Deployment.file__
      Deployment.m_unset
    = match read_text Deployment.W_renaming (sibling_target ["srv"; "app"]) with
      | Some source =>
          run_foreign (exec_source Deployment.W_renaming source)
            {| ps := ps (final Deployment.import_renaming);
               log := log (final Deployment.import_renaming)
                      ++ [EvOpen target_file; EvExec source] |}
      | None =>
          Raised (OSError target_file)
            {| ps := ps (final Deployment.import_renaming);
               log := log (final Deployment.import_renaming)
                      ++ [EvOpen target_file] |}
      end.
Proof.
  assert (Forall (λ c, posixpath.proper_comp c = true) ["srv"; "app"]) as H2
    by (repeat constructor).
  assert (posixpath.abspath (cwd (ps Deployment.m_unset)) Deployment.file__
          = posixpath.render_abs (["srv"; "app"] ++ ["start_server.py"]))
    as H4 by (vm_compute; reflexivity).
  assert (is_dir Deployment.W_renaming (posixpath.render_abs ["srv"; "app"])
          = true) as H5 by (vm_compute; reflexivity).
  assert (Deployment.import_renaming
          = Done Deployment.entry_point_module
              (final Deployment.import_renaming))
    as H7 by (vm_compute; reflexivity).
  split;
    [exact (conj (stdlib_ready_boot _ _)
              (conj H2 (conj eq_refl (conj H4 (conj H5
                 (conj renaming_preserves_cwd (conj H7 eq_refl))))))) |].
  exact (rerun_opens_sibling_file Deployment.W_renaming Deployment.file__
           ["srv"; "app"] "start_server.py" Deployment.entry_point_module
           Deployment.m_unset (final Deployment.import_renaming)
           (stdlib_ready_boot _ _) H2 eq_refl H4 H5 renaming_preserves_cwd
           H7 eq_refl).
Defined.

(** *** What the launcher leaves alone *)

Section launcher_preserves.
Context {X : Type} (f : proc → X) (W : world).
Hypothesis f_sys_modules : ∀ g s, f (set_sys_modules g s) = f s.
Hypothesis f_heap : ∀ g s, f (set_heap g s) = f s.
Hypothesis imports_f : imports_preserve f W.
Hypothesis exec_f : exec_preserves f W.

Lemma launch_application_preserves (x : X) m :
  f (ps m) = x →
  wp (launch_application W) (λ _ m', f (ps m') = x) (λ m', f (ps m') = x) m.
Proof.
  intros Hx. unfold launch_application. wp_step.
  eapply wp_mono; [by apply (import_as_preserves f W) | | done].
  cbv beta. intros mo m1 Hm1.
  destruct (hasattr_name mo && name_is mo "__main__"); [| by wp_step].
  unfold open_read, exec. wp_steps; try done;
    match goal with
    | Hb : exec_source _ ?src ?s0 = _ |- _ =>
        pose proof (exec_f src s0) as Hp; rewrite Hb in Hp
    end; congruence.
Qed.

Hypothesis f_cwd : ∀ d s, f (set_cwd d s) = f s.
Hypothesis f_configured : ∀ s, f (configured s) = f s.

Lemma start_server_preserves (name__ file__ : string) m :
  f (ps (final (start_server W name__ file__ m))) = f (ps m).
Proof.
  apply (wp_final _ (λ m', f (ps m') = f (ps m))).
  unfold start_server. wp_step.
  eapply wp_mono; [by apply (import_as_preserves f W) | | done].
  cbv beta. intros _ m1 Hm1. wp_step.
  eapply wp_mono; [by apply (import_as_preserves f W) | | done].
  cbv beta. intros _ m2 Hm2. wp_step.
  unfold wp at 1. rewrite configure_environment_run.
  destruct (String.eqb name__ "__main__");
    [| wp_step; by rewrite f_configured].
  wp_step. unfold wp at 1. rewrite establish_working_directory_run.
  cbv zeta. cbn [ps log]. destruct (is_dir W _).
  - apply launch_application_preserves. cbn [ps].
    by rewrite f_cwd, f_configured.
  - cbn [ps]. by rewrite f_configured.
Qed.
End launcher_preserves.

(** Once [os.chdir] has succeeded, and as long as the code the launcher
    hands over to does not change directory itself, the process is in the
    launcher's directory at every later point: when the launcher returns,
    when it ends in an exception, and while code that does not return (a
    server loop) runs. *)
Theorem launcher_stays_in_script_dir (W : world) (file__ : string)
    (m : machine) :
  stdlib_ready (ps m) → is_dir W (script_dir (ps m) file__) = true →
  imports_preserve cwd W → exec_preserves cwd W →
  cwd (ps (final (start_server W "__main__" file__ m)))
  = script_dir (ps m) file__.
Proof.
  intros Hstd Hdir Himp Hexec. rewrite start_server_main by done.
  apply (wp_final _ (λ m', cwd (ps m') = script_dir (ps m) file__)).
  by apply (launch_application_preserves cwd W (λ _ _, eq_refl)
              (λ _ _, eq_refl)).
Qed.

Lemma launcher_stays_in_script_dir_witness :
  (stdlib_ready (ps Deployment.m_unset)
   ∧ is_dir Deployment.W_renaming
       (script_dir (ps Deployment.m_unset) Deployment.file__) = true
   ∧ imports_preserve cwd Deployment.W_renaming
   ∧ exec_preserves cwd Deployment.W_renaming)
  ∧ cwd (ps (final (start_server Deployment.W_renaming "__main__"
                      Deployment.file__ Deployment.m_unset)))
    = script_dir (ps Deployment.m_unset) Deployment.file__.
Proof.
  assert (is_dir Deployment.W_renaming
            (script_dir (ps Deployment.m_unset) Deployment.file__) = true)
    as H2 by (vm_compute; reflexivity).
  assert (exec_preserves cwd Deployment.W_renaming) as H4
    by (intros src s; exact I).
  split;
    [exact (conj (stdlib_ready_boot _ _)
              (conj H2 (conj renaming_preserves_cwd H4))) |].
  exact (launcher_stays_in_script_dir Deployment.W_renaming Deployment.file__
           Deployment.m_unset (stdlib_ready_boot _ _) H2
           renaming_preserves_cwd H4).
Defined.

(** The launcher writes no environment variable but
    [STARLETTE_ALLOWED_HOSTS]: any other variable [k] that the code it hands
    over to leaves alone has, at the end of every run and whatever
    [__name__] is, the value (or the absence) it started with. *)
Theorem other_variables_untouched (W : world) (name__ file__ k : string)
    (m : machine) :
  k ≠ STARLETTE_ALLOWED_HOSTS →
  imports_preserve (λ s, environ s !! k) W →
  exec_preserves (λ s, environ s !! k) W →
  environ (ps (final (start_server W name__ file__ m))) !! k
  = environ (ps m) !! k.
Proof.
  intros Hk Himp Hexec.
  apply (start_server_preserves (λ s, environ s !! k) W); try done.
  intros s. unfold configured.
  destruct (environ s !! STARLETTE_ALLOWED_HOSTS); [done |].
  cbn. by rewrite lookup_insert_ne.
Qed.

Lemma other_variables_untouched_witness :
  ("PORT" ≠ STARLETTE_ALLOWED_HOSTS
   ∧ imports_preserve (λ s, environ s !! "PORT") Deployment.W
   ∧ exec_preserves (λ s, environ s !! "PORT") Deployment.W)
  ∧ environ (ps (final (start_server Deployment.W "__main__"
                          Deployment.file__ m_port))) !! "PORT"
    = environ (ps m_port) !! "PORT".
Proof.
  assert ("PORT" ≠ STARLETTE_ALLOWED_HOSTS) as H1 by discriminate.
  pose proof (deployment_preserves (λ s, environ s !! "PORT")) as H2.
  pose proof (deployment_exec_preserves (λ s, environ s !! "PORT")) as H3.
  split; [exact (conj H1 (conj H2 H3)) |].
  exact (other_variables_untouched Deployment.W "__main__" Deployment.file__
           "PORT" m_port H1 H2 H3).
Defined.

Example port_after_the_run :
  environ (ps (final (start_server Deployment.W "__main__" Deployment.file__
                        m_port)))
  = <[ STARLETTE_ALLOWED_HOSTS := "*" ]> {[ "PORT" := "8000" ]}.
Proof. vm_compute. reflexivity. Qed.

(** The launcher imports [sys] and never touches [sys.argv]: as long as the
    code it hands over to leaves the command line alone, every run ends,
    whatever [__name__] is, with the command line it started with. *)
Theorem argv_untouched (W : world) (name__ file__ : string) (m : machine) :
  imports_preserve argv W → exec_preserves argv W →
  argv (ps (final (start_server W name__ file__ m))) = argv (ps m).
Proof.
  intros Himp Hexec. apply (start_server_preserves argv W); try done.
  intros s. unfold configured.
  by destruct (environ s !! STARLETTE_ALLOWED_HOSTS).
Qed.

Lemma argv_untouched_witness :
  (imports_preserve argv Deployment.W ∧ exec_preserves argv Deployment.W)
  ∧ argv (ps (final (start_server Deployment.W "__main__" Deployment.file__
                       Deployment.m_args)))
    = argv (ps Deployment.m_args).
Proof.
  pose proof (deployment_preserves argv) as H1.
  pose proof (deployment_exec_preserves argv) as H2.
  split; [exact (conj H1 H2) |].
  exact (argv_untouched Deployment.W "__main__" Deployment.file__
           Deployment.m_args H1 H2).
Defined.


(** *** With a normal import, the launcher is the import *)

(** Run as the program with a target that is imported for the first time
    and normally (no top level that the import runs touches the entries of
    the package and the target in [sys.modules], their [__name__] or the
    attribute [main] of the package), the launcher does what the import of
    [shopping_cart_python.main] from the launcher's directory does, and
    nothing more: it returns when the import returns, raises what the
    import raises, and does not return when the import does not; nothing
    the launcher does itself starts the application. *)
Theorem normal_launch_is_import (W : world) (file__ : string) (m : machine) :
  stdlib_ready (ps m) → is_dir W (script_dir (ps m) file__) = true →
  imports_keep_bookkeeping W → not_yet_loaded (ps m) →
  start_server W "__main__" file__ m
  = match import_as W target_module (after_line_16 file__ m) with
    | Done _ m1 => Done tt m1
    | Raised e m1 => Raised e m1
    | Hung m1 => Hung m1
    end.
Proof.
  intros Hstd Hdir HW Hfresh. rewrite start_server_main by done.
  assert (not_yet_loaded (ps (after_line_16 file__ m))) as Hfresh'.
  { cbn [after_line_16 ps after_line_10].
    by apply not_yet_loaded_configured in Hfresh. }
  pose proof (import_as_target_normal W HW _ Hfresh') as Hwp.
  unfold wp in Hwp. unfold launch_application.
  unfold mbind at 1, M_bind at 1.
  destruct (import_as W target_module (after_line_16 file__ m))
    as [mo m1|e m1|m1]; [| done..].
  destruct Hwp as (Hname & _). rewrite entry_point_test, Hname.
  by rewrite bool_decide_eq_false_2 by discriminate.
Qed.

Lemma normal_launch_is_import_witness :
  (stdlib_ready (ps Deployment.m_unset)
   ∧ is_dir Deployment.W
       (script_dir (ps Deployment.m_unset) Deployment.file__) = true
   ∧ imports_keep_bookkeeping Deployment.W
   ∧ not_yet_loaded (ps Deployment.m_unset))
  ∧ start_server Deployment.W "__main__" Deployment.file__ Deployment.m_unset
    = match import_as Deployment.W target_module
              (after_line_16 Deployment.file__ Deployment.m_unset) with
      | Done _ m1 => Done tt m1
      | Raised e m1 => Raised e m1
      | Hung m1 => Hung m1
      end.
Proof.
  assert (is_dir Deployment.W
            (script_dir (ps Deployment.m_unset) Deployment.file__) = true)
    as H2 by (vm_compute; reflexivity).
  pose proof deployment_keeps_bookkeeping as H3.
  pose proof (boot_not_yet_loaded ∅ ["start_server.py"]) as H4.
  split; [exact (conj (stdlib_ready_boot _ _) (conj H2 (conj H3 H4))) |].
  exact (normal_launch_is_import Deployment.W Deployment.file__
           Deployment.m_unset (stdlib_ready_boot _ _) H2 H3 H4).
Defined.

Example normal_run_returns :
  match start_server Deployment.W "__main__" Deployment.file__
          Deployment.m_unset with
  | Done _ _ => True
  | _ => False
  end.
Proof. vm_compute. done. Qed.

